(** * Shared credentials provider with STS role chaining and response cache

    A shallow embedding of package [sharedcreds]
    (aws/credentials/sharedcreds): the shared-credentials provider
    ([Retrieve], [Assume], [IsExpired], [loadProfile], [validate],
    [filename], [profile]) and its response cache ([FileCache],
    [JSONFileCacheProvider]).

    Go values are modelled as follows.
    - [string] is Go's byte string; [==] on strings is [String.eqb].
    - A pointer that the code dereferences is an [option]; dereferencing
      [None] is the run-time panic of a nil pointer.
    - [error] values are an inductive type; a nil error is [None].
    - [time.Time] and [time.Duration] are integers counting nanoseconds.
    - The file system, the environment, the clock and the log of calls made
      to the STS client form the [World]; code that touches them runs in the
      monad [M], whose results are [Done] or [Panic]. *)

From Stdlib Require Import ZArith Lia Ascii String.
From stdpp Require Import base option strings gmap pretty.

Local Open Scope string_scope.
Local Open Scope Z_scope.

(** ** Go's strings package, as far as the code uses it *)
Module strings.

(** [strings.Replace(s, old, new, -1)] for one-byte [old] and [new]:
    every occurrence is replaced. *)
Fixpoint ReplaceAll (s : string) (old new : ascii) : string :=
  match s with
  | EmptyString => EmptyString
  | String c rest =>
      String (if Ascii.eqb c old then new else c) (ReplaceAll rest old new)
  end.

(** [strings.Replace(s, old, new, 1)] for a one-byte [old]: the first
    occurrence is replaced by the string [new]. *)
Fixpoint ReplaceFirst (s : string) (old : ascii) (new : string) : string :=
  match s with
  | EmptyString => EmptyString
  | String c rest =>
      if Ascii.eqb c old then new +:+ rest
      else String c (ReplaceFirst rest old new)
  end.

(** [strings.Join(elems, sep)]. *)
Fixpoint Join (elems : list string) (sep : string) : string :=
  match elems with
  | [] => ""
  | [a] => a
  | a :: rest => a +:+ sep +:+ Join rest sep
  end.

(** [c] occurs in [s]. *)
Fixpoint Contains (s : string) (c : ascii) : bool :=
  match s with
  | EmptyString => false
  | String d rest => Ascii.eqb d c || Contains rest c
  end.

End strings.

(** ** Errors *)

(** A Go [error]. [awserr_New code message origErr] is [awserr.New]; the
    errors raised by the collaborators (the operating system, the ini parser,
    the JSON codec, the STS client) are opaque and carry their text. *)
#[warning="-register-all"]
Inductive error : Type :=
| awserr_New (code message : string) (origErr : option error)
| ext_error (text : string).

(** The code of an error made by [awserr.New]. *)
Definition Code (e : error) : string :=
  match e with
  | awserr_New code _ _ => code
  | ext_error _ => ""
  end.

(** ** credentials.Value, with the role fields this repository adds *)
Record Value : Type := mkValue {
  AccessKeyID : string;
  SecretAccessKey : string;
  SessionToken : string;
  ProviderName : string;
  RoleARN : string;
  RoleSessionName : string;
  SourceProfile : string;
  MFASerial : string;
  ExternalID : option string
}.

Definition SharedCredsProviderName : string := "SharedCredentialsProvider".

(** [credentials.Value{ProviderName: SharedCredsProviderName}]: every other
    field has its zero value. *)
Definition Value_ProviderNameOnly : Value :=
  mkValue "" "" "" SharedCredsProviderName "" "" "" "" None.

Definition ErrSharedCredentialsHomeNotFound : error :=
  awserr_New "UserHomeNotFound" "user home directory not found." None.

(** ** Cache key (cache.go, [getCacheKey]) *)

Definition getCacheKey (profile roleArn roleSessionName : string) : string :=
  let arn := strings.ReplaceAll roleArn ":"%char "_"%char in
  let cacheKey := strings.Join [profile; arn] "--" in
  if String.eqb roleSessionName "" then cacheKey
  else strings.Join [cacheKey; roleSessionName] "--".

(** ** Validation of a loaded profile ([validate]) *)

Definition validate (value : Value) (filename profile : string)
  : Value * option error :=
  if String.eqb (RoleARN value) "" then
    if String.eqb (AccessKeyID value) "" then
      (Value_ProviderNameOnly,
       Some (awserr_New "SharedCredsAccessKey"
               ("shared credentials " +:+ profile +:+ " in " +:+ filename
                +:+ " did not contain aws_access_key_id") None))
    else if String.eqb (SecretAccessKey value) "" then
      (Value_ProviderNameOnly,
       Some (awserr_New "SharedCredsSecret"
               ("shared credentials " +:+ profile +:+ " in " +:+ filename
                +:+ " did not contain aws_secret_access_key") None))
    else (value, None)
  else
    if String.eqb (SourceProfile value) "" then
      (Value_ProviderNameOnly,
       Some (awserr_New "SharedCredsSourceProfile"
               ("shared credentials " +:+ profile +:+ " in " +:+ filename
                +:+ " did not contain source_profile") None))
    else (value, None).

(** ** Time *)

(** An instant ([time.Time]): nanoseconds since the zero [time.Time], so the
    zero value of the type is [0] and every reading of the wall clock is
    positive. *)
Definition time_Time : Type := Z.

(** [time.Duration]: a count of nanoseconds. *)
Definition time_Duration : Type := Z.

Definition time_Second : time_Duration := 1000000000.
Definition time_Minute : time_Duration := 60 * time_Second.

(** [DefaultDuration = time.Duration(15) * time.Minute]. *)
Definition DefaultDuration : time_Duration := 15 * time_Minute.

(** Nanoseconds between the zero [time.Time] (1 January of year 1, UTC) and
    the Unix epoch. *)
Definition unixEpochOffset : Z := 62135596800 * 1000000000.

(** [t.UTC().UnixNano()], for instants whose result fits an int64 (the years
    1678 to 2262). *)
Definition UnixNano (t : time_Time) : Z := t - unixEpochOffset.

(** ** The embedded credentials.Expiry *)

(** Modelled from the spec: [credentials.Expiry] (its [SetExpiration] and
    [IsExpired]) belongs to package [credentials], which is not among the
    sources. The spec keeps an expiration timestamp from which the expiry
    window has been subtracted, and reports expiry when the current time is
    at or past it; the comment on [STSOptions.ExpiryWindow] adds that a
    window of zero or less is ignored. A [credentials_Expiry] that was never
    set holds the zero [time_Time]. *)
Record credentials_Expiry : Type := mkExpiry { expiration : time_Time }.

Definition Expiry_zero : credentials_Expiry := mkExpiry 0.

(** Modelled from the spec: see [credentials_Expiry]. *)
Definition Expiry_SetExpiration (e : credentials_Expiry) (exp : time_Time)
    (window : time_Duration) : credentials_Expiry :=
  mkExpiry (if 0 <? window then exp - window else exp).

(** Modelled from the spec: see [credentials_Expiry]. *)
Definition Expiry_IsExpired (e : credentials_Expiry) (now : time_Time) : bool :=
  expiration e <=? now.

(** ** The STS messages the provider reads and writes *)

(** [sts.Credentials]: every field is a pointer. *)
Record sts_Credentials : Type := mkStsCredentials {
  AccessKeyId : option string;
  Expiration : option time_Time;
  sts_SecretAccessKey : option string;
  sts_SessionToken : option string
}.

(** [sts.AssumeRoleOutput]; only [Credentials] is read. *)
Record AssumeRoleOutput : Type := mkAssumeRoleOutput {
  Credentials : option sts_Credentials
}.

(** [sts.AssumeRoleInput], the fields [Assume] fills in. *)
Record AssumeRoleInput : Type := mkAssumeRoleInput {
  DurationSeconds : option Z;
  RoleArn : option string;
  in_RoleSessionName : option string;
  ExternalId : option string
}.

(** The interface [AssumeRoler]: its one method [AssumeRole]. The call
    itself is [call_AssumeRole] below, which also logs it. *)
Definition AssumeRoler : Type :=
  AssumeRoleInput -> option AssumeRoleOutput * option error.

(** ** The world outside the provider *)

(** A parsed ini file: section name to (key to value). *)
Abbreviation IniFile := (gmap string (gmap string string)).

Record World : Type := mkWorld {
  (** [os.Getenv]; an unset variable reads as the empty string. *)
  environ : string -> string;
  (** [ini.Load]: what the parser makes of the file of that name. *)
  ini_files : string -> error + IniFile;
  (** [user.Current()]: the home directory of the current user, when the
      lookup succeeds. *)
  current_user : option string;
  (** The files [ioutil.ReadFile] and [ioutil.WriteFile] work on. *)
  disk : gmap string string;
  (** The error [ioutil.WriteFile] gives for a file name, if any. *)
  write_fault : string -> option error;
  (** [time.Now()]. *)
  now : time_Time;
  (** The requests sent to the STS client so far, oldest first. *)
  sts_calls : list AssumeRoleInput
}.

Definition set_disk (d : gmap string string) (w : World) : World :=
  mkWorld (environ w) (ini_files w) (current_user w) d (write_fault w)
    (now w) (sts_calls w).

Definition log_sts_call (input : AssumeRoleInput) (w : World) : World :=
  mkWorld (environ w) (ini_files w) (current_user w) (disk w) (write_fault w)
    (now w) (sts_calls w ++ [input]).

(** ** Computations: state passing over the world, with panics *)

Inductive Result (A : Type) : Type :=
| Done (a : A)
| Panic (reason : string).
Arguments Done {A} a.
Arguments Panic {A} reason.

Definition M (A : Type) : Type := World -> Result (A * World).

#[export] Instance M_ret : MRet M := fun A a w => Done (a, w).

#[export] Instance M_bind : MBind M := fun A B f m w =>
  match m w with
  | Done (a, w') => f a w'
  | Panic r => Panic r
  end.

Definition panic {A : Type} (reason : string) : M A := fun _ => Panic reason.

Definition nilDereference : string :=
  "invalid memory address or nil pointer dereference".

(** [*ptr]. *)
Definition deref {A : Type} (ptr : option A) : M A :=
  match ptr with
  | Some a => mret a
  | None => panic nilDereference
  end.

Definition os_Getenv (key : string) : M string :=
  fun w => Done (environ w key, w).

Definition time_Now : M time_Time := fun w => Done (now w, w).

(** [client.AssumeRole(input)]. *)
Definition call_AssumeRole (client : AssumeRoler) (input : AssumeRoleInput)
  : M (option AssumeRoleOutput * option error) :=
  fun w => Done (client input, log_sts_call input w).

(** ** Collaborators that are libraries *)

(** The library functions the package calls and whose code lies outside it:
    the JSON codec for [sts.AssumeRoleOutput], [filepath.Join], and the
    client [sts.New(session.New())] used when none is configured. *)
Record Collaborators : Type := mkCollaborators {
  (** [json.Marshal(response)]: the bytes and the error. *)
  json_Marshal : AssumeRoleOutput -> string * option error;
  (** [json.Unmarshal(data, &response)] on a zero [response]: the response
      afterwards and the error. *)
  json_Unmarshal : string -> AssumeRoleOutput * option error;
  filepath_Join : list string -> string;
  sts_New : AssumeRoler
}.

(** ** The provider's data *)

Record STSOptions : Type := mkSTSOptions {
  Duration : time_Duration;
  ExpiryWindow : time_Duration;
  Client : option AssumeRoler
}.

(** The interface [Cache]. *)
Record Cache_interface : Type := mkCache {
  Cache_Get : M (option AssumeRoleOutput * option error);
  Cache_IsExpired : M bool;
  Cache_Set : option AssumeRoleOutput -> M (option error)
}.

(** The interface [CacheProvider]. *)
Record CacheProvider_interface : Type := mkCacheProvider {
  CacheProvider_Get : string -> string -> string -> M Cache_interface
}.

(** [SharedCredentialsProvider]. An interface field that is nil is [None]. *)
Record SharedCredentialsProvider : Type := mkProvider {
  Expiry : credentials_Expiry;
  Filename : string;
  Profile : string;
  retrieved : bool;
  CacheProvider : option CacheProvider_interface;
  Cache : bool;
  STS : STSOptions
}.

Definition set_Expiry (e : credentials_Expiry) (p : SharedCredentialsProvider) :=
  mkProvider e (Filename p) (Profile p) (retrieved p) (CacheProvider p)
    (Cache p) (STS p).

Definition set_Filename (f : string) (p : SharedCredentialsProvider) :=
  mkProvider (Expiry p) f (Profile p) (retrieved p) (CacheProvider p)
    (Cache p) (STS p).

Definition set_Profile (f : string) (p : SharedCredentialsProvider) :=
  mkProvider (Expiry p) (Filename p) f (retrieved p) (CacheProvider p)
    (Cache p) (STS p).

Definition set_retrieved (b : bool) (p : SharedCredentialsProvider) :=
  mkProvider (Expiry p) (Filename p) (Profile p) b (CacheProvider p)
    (Cache p) (STS p).

Definition set_STS (o : STSOptions) (p : SharedCredentialsProvider) :=
  mkProvider (Expiry p) (Filename p) (Profile p) (retrieved p)
    (CacheProvider p) (Cache p) o.

Definition set_RoleSessionName (n : string) (v : Value) : Value :=
  mkValue (AccessKeyID v) (SecretAccessKey v) (SessionToken v) (ProviderName v)
    (RoleARN v) n (SourceProfile v) (MFASerial v) (ExternalID v).

Definition set_SourceProfile (n : string) (v : Value) : Value :=
  mkValue (AccessKeyID v) (SecretAccessKey v) (SessionToken v) (ProviderName v)
    (RoleARN v) (RoleSessionName v) n (MFASerial v) (ExternalID v).

(** ** cache.go *)

Record FileCache : Type := mkFileCache { FileName : string }.

Record JSONFileCacheProvider : Type := mkJSONFileCacheProvider {
  CacheDirName : string
}.

(** [ioutil.ReadFile]. *)
Definition ioutil_ReadFile (name : string) : M (string * option error) :=
  fun w =>
    match disk w !! name with
    | Some data => Done ((data, None), w)
    | None =>
        Done (("", Some (ext_error
                 ("open " +:+ name +:+ ": no such file or directory"))), w)
    end.

(** [ioutil.WriteFile(name, data, 0644)]. *)
Definition ioutil_WriteFile (name data : string) : M (option error) :=
  fun w =>
    match write_fault w name with
    | Some e => Done (Some e, w)
    | None => Done (None, set_disk (<[name := data]> (disk w)) w)
    end.

(** [user.Current()], its error dropped as the caller drops it: the user
    is nil when the lookup fails. *)
Definition user_Current : M (option string) :=
  fun w => Done (current_user w, w).

Section Package.

Variable lib : Collaborators.

Definition FileCache_Get (c : FileCache)
  : M (option AssumeRoleOutput * option error) :=
  '(data, err) ← ioutil_ReadFile (FileName c);
  match err with
  | Some e => mret (None, Some e)
  | None =>
      let '(response, err) := json_Unmarshal lib data in
      mret (Some response, err)
  end.

Definition FileCache_IsExpired (c : FileCache) : M bool := mret true.

Definition FileCache_Set (c : FileCache) (response : option AssumeRoleOutput)
  : M (option error) :=
  r ← deref response;
  let '(data, err) := json_Marshal lib r in
  match err with
  | Some e => mret (Some e)
  | None => ioutil_WriteFile (FileName c) data
  end.

(** [*FileCache] as a [Cache]. *)
Definition FileCache_as_Cache (c : FileCache) : Cache_interface :=
  mkCache (FileCache_Get c) (FileCache_IsExpired c) (FileCache_Set c).

Definition JSONFileCacheProvider_Get (c : JSONFileCacheProvider)
    (profile roleArn roleSessionName : string) : M Cache_interface :=
  let cacheKey := getCacheKey profile roleArn roleSessionName in
  user ← user_Current;
  homeDir ← deref user;
  let dir := CacheDirName c in
  if (String.length dir <? 2)%nat then panic "slice bounds out of range"
  else
    let dir :=
      if String.eqb (substring 0 2 dir) "~/"
      then strings.ReplaceFirst dir "~"%char homeDir
      else dir in
    mret (FileCache_as_Cache
            (mkFileCache
               (filepath_Join lib [dir; strings.Join [cacheKey; "json"] "."]))).

(** [*JSONFileCacheProvider] as a [CacheProvider]. *)
Definition JSONFileCacheProvider_as_CacheProvider (c : JSONFileCacheProvider)
  : CacheProvider_interface :=
  mkCacheProvider (JSONFileCacheProvider_Get c).

(** ** The provider (part_000) *)

(** [NewSharedCredentialsWithOptions], up to the wrapper
    [credentials.NewCredentials] around the provider it builds. *)
Definition NewSharedCredentialsWithOptions (filename profile : string)
    (options : list (SharedCredentialsProvider -> SharedCredentialsProvider))
  : SharedCredentialsProvider :=
  let p :=
    mkProvider Expiry_zero filename profile false
      (Some (JSONFileCacheProvider_as_CacheProvider
               (mkJSONFileCacheProvider
                  (filepath_Join lib ["~"; ".aws"; "cli"; "cache"]))))
      false (mkSTSOptions 0 0 None) in
  foldl (fun p option => option p) p options.

(** [ini.Load]. *)
Definition ini_Load (filename : string) : M (error + IniFile) :=
  fun w => Done (ini_files w filename, w).

(** [section.Key(name).String()]: empty when the key is absent. *)
Definition Key_String (section : gmap string string) (name : string) : string :=
  default "" (section !! name).

Definition loadProfile (filename profile : string) : M (Value * option error) :=
  config ← ini_Load filename;
  match config with
  | inl err =>
      mret (Value_ProviderNameOnly,
            Some (awserr_New "SharedCredsLoad"
                    "failed to load shared credentials file" (Some err)))
  | inr config =>
      match config !! profile with
      | None =>
          mret (Value_ProviderNameOnly,
                Some (awserr_New "SharedCredsLoad" "failed to get profile"
                        (Some (ext_error
                           ("section '" +:+ profile +:+ "' does not exist")))))
      | Some iniProfile =>
          let value :=
            mkValue (Key_String iniProfile "aws_access_key_id")
              (Key_String iniProfile "aws_secret_access_key")
              (Key_String iniProfile "aws_session_token")
              SharedCredsProviderName
              (Key_String iniProfile "role_arn")
              (Key_String iniProfile "role_session_name")
              (Key_String iniProfile "source_profile")
              (Key_String iniProfile "mfa_serial")
              None in
          mret (validate value filename profile)
      end
  end.

Definition filename (p : SharedCredentialsProvider)
  : M (SharedCredentialsProvider * (string * option error)) :=
  if String.eqb (Filename p) "" then
    v ← os_Getenv "AWS_SHARED_CREDENTIALS_FILE";
    let p := set_Filename v p in
    if negb (String.eqb (Filename p) "") then mret (p, (Filename p, None))
    else
      homeDir ← os_Getenv "HOME";
      homeDir ← (if String.eqb homeDir "" then os_Getenv "USERPROFILE"
                 else mret homeDir);
      if String.eqb homeDir "" then
        mret (p, ("", Some ErrSharedCredentialsHomeNotFound))
      else
        let p := set_Filename
                   (filepath_Join lib [homeDir; ".aws"; "credentials"]) p in
        mret (p, (Filename p, None))
  else mret (p, (Filename p, None)).

Definition profile (p : SharedCredentialsProvider)
  : M (SharedCredentialsProvider * string) :=
  p ← (if String.eqb (Profile p) "" then
         v ← os_Getenv "AWS_PROFILE"; mret (set_Profile v p)
       else mret p);
  let p := if String.eqb (Profile p) "" then set_Profile "default" p else p in
  mret (p, Profile p).

(** The request [Assume] sends: the literal [&sts.AssumeRoleInput{...}],
    written twice in the source (with and without the cache). *)
Definition assumeRoleInput (p : SharedCredentialsProvider) (credentials : Value)
  : AssumeRoleInput :=
  mkAssumeRoleInput
    (Some (Z.quot (Duration (STS p)) time_Second))
    (Some (RoleARN credentials))
    (Some (RoleSessionName credentials))
    (ExternalID credentials).

(** [Assume], first part: the defaults for parameters that are not set. *)
Definition Assume_defaults (p : SharedCredentialsProvider) (credentials : Value)
  : M (SharedCredentialsProvider * Value) :=
  credentials ← (if String.eqb (RoleSessionName credentials) "" then
                   t ← time_Now;
                   mret (set_RoleSessionName (pretty (UnixNano t)) credentials)
                 else mret credentials);
  let p :=
    if Duration (STS p) =? 0
    then set_STS (mkSTSOptions DefaultDuration (ExpiryWindow (STS p))
                    (Client (STS p))) p
    else p in
  let p :=
    match Client (STS p) with
    | None => set_STS (mkSTSOptions (Duration (STS p)) (ExpiryWindow (STS p))
                         (Some (sts_New lib))) p
    | Some _ => p
    end in
  mret (p, credentials).

(** [Assume], second part: [roleOutput, err] from the cache or from the
    STS client. *)
Definition Assume_roleOutput (p : SharedCredentialsProvider) (credentials : Value)
  : M (option AssumeRoleOutput * option error) :=
  if Cache p then
    provider ← deref (CacheProvider p);
    cache ← CacheProvider_Get provider (SourceProfile credentials)
              (RoleARN credentials) (RoleSessionName credentials);
    expired ← Cache_IsExpired cache;
    if negb expired then Cache_Get cache
    else
      client ← deref (Client (STS p));
      '(roleOutput, err) ← call_AssumeRole client (assumeRoleInput p credentials);
      match err with
      | Some _ =>
          err ← Cache_Set cache roleOutput;
          mret (roleOutput, err)
      | None => mret (roleOutput, err)
      end
  else
    client ← deref (Client (STS p));
    call_AssumeRole client (assumeRoleInput p credentials).

(** [Assume], last part: the error is returned, or the expiration is
    recorded and the credentials of the response are returned. *)
Definition Assume_result (p : SharedCredentialsProvider)
    (roleOutput : option AssumeRoleOutput) (err : option error)
  : M (SharedCredentialsProvider * (Value * option error)) :=
  match err with
  | Some e => mret (p, (Value_ProviderNameOnly, Some e))
  | None =>
      roleOutput ← deref roleOutput;
      creds ← deref (Credentials roleOutput);
      exp ← deref (Expiration creds);
      let p := set_Expiry
                 (Expiry_SetExpiration (Expiry p) exp (ExpiryWindow (STS p))) p in
      accessKeyID ← deref (AccessKeyId creds);
      secretAccessKey ← deref (sts_SecretAccessKey creds);
      sessionToken ← deref (sts_SessionToken creds);
      mret (p, (mkValue accessKeyID secretAccessKey sessionToken
                  SharedCredsProviderName "" "" "" "" None, None))
  end.

Definition Assume (p : SharedCredentialsProvider)
    (credentials sourceCredentials : Value)
  : M (SharedCredentialsProvider * (Value * option error)) :=
  '(p, credentials) ← Assume_defaults p credentials;
  '(roleOutput, err) ← Assume_roleOutput p credentials;
  Assume_result p roleOutput err.

Definition Retrieve (p : SharedCredentialsProvider)
  : M (SharedCredentialsProvider * (Value * option error)) :=
  let p := set_retrieved false p in
  '(p, (filename, err)) ← filename p;
  match err with
  | Some e => mret (p, (Value_ProviderNameOnly, Some e))
  | None =>
      '(p, profile) ← profile p;
      '(creds, err) ← loadProfile filename profile;
      match err with
      | Some e => mret (p, (Value_ProviderNameOnly, Some e))
      | None =>
          if negb (String.eqb (RoleARN creds) "") then
            let creds :=
              if String.eqb (SourceProfile creds) ""
              then set_SourceProfile "default" creds else creds in
            '(sourceCreds, err) ← loadProfile filename (SourceProfile creds);
            match err with
            | Some e => mret (p, (Value_ProviderNameOnly, Some e))
            | None => Assume p creds sourceCreds
            end
          else
            let p := set_retrieved true p in
            mret (p, (creds, None))
      end
  end.

Definition IsExpired (p : SharedCredentialsProvider) (now : time_Time) : bool :=
  negb (retrieved p) && Expiry_IsExpired (Expiry p) now.

End Package.

(** The value [loadProfile] reads from a section of the file. *)
Definition sectionValue (iniProfile : gmap string string) : Value :=
  mkValue (Key_String iniProfile "aws_access_key_id")
    (Key_String iniProfile "aws_secret_access_key")
    (Key_String iniProfile "aws_session_token")
    SharedCredsProviderName
    (Key_String iniProfile "role_arn")
    (Key_String iniProfile "role_session_name")
    (Key_String iniProfile "source_profile")
    (Key_String iniProfile "mfa_serial")
    None.

(** What [loadProfile] returns in a world: it reads the world and leaves it
    as it is (lemma [loadProfile_eq]). *)
Definition loadedProfile (w : World) (filename profile : string)
  : Value * option error :=
  match ini_files w filename with
  | inl err =>
      (Value_ProviderNameOnly,
       Some (awserr_New "SharedCredsLoad"
               "failed to load shared credentials file" (Some err)))
  | inr config =>
      match config !! profile with
      | None =>
          (Value_ProviderNameOnly,
           Some (awserr_New "SharedCredsLoad" "failed to get profile"
                   (Some (ext_error
                      ("section '" +:+ profile +:+ "' does not exist")))))
      | Some iniProfile => validate (sectionValue iniProfile) filename profile
      end
  end.

(** What the helpers of [Retrieve] and [Assume] keep of the provider. *)
Definition same_session_state (p q : SharedCredentialsProvider) : Prop :=
  retrieved q = retrieved p /\ Expiry q = Expiry p
  /\ ExpiryWindow (STS q) = ExpiryWindow (STS p)
  /\ Cache q = Cache p /\ CacheProvider q = CacheProvider p.

(** The code of the error of a result, if it has one. *)
Definition errorCode {A : Type} (r : A * option error) : option string :=
  Code <$> snd r.

(** ** Observing an outcome *)

(** An outcome of [Retrieve] or [Assume]. *)
Definition Outcome : Type :=
  Result (SharedCredentialsProvider * (Value * option error) * World).

(** What can be seen of an outcome that is not a function: the value and
    the error returned, the retrieved flag and the expiration recorded in the
    provider, the requests the STS client has received, and the files. *)
Record Observed : Type := mkObserved {
  returned : Value * option error;
  retrievedAfter : bool;
  expiryAfter : credentials_Expiry;
  callsAfter : list AssumeRoleInput;
  diskAfter : gmap string string
}.

Definition observe (r : Outcome) : Result Observed :=
  match r with
  | Done ((p, ve), w) =>
      Done (mkObserved ve (retrieved p) (Expiry p) (sts_calls w) (disk w))
  | Panic reason => Panic reason
  end.

(** [IsExpired] of the provider an outcome leaves, at time [t]. *)
Definition isExpiredAfter (r : Outcome) (t : time_Time) : option bool :=
  match r with
  | Done ((p, _), _) => Some (IsExpired p t)
  | Panic _ => None
  end.

(** What [Get] of a file cache returns in the world an outcome leaves. *)
Definition cacheEntryAfter (lib : Collaborators) (r : Outcome) (c : FileCache)
  : option (option AssumeRoleOutput * option error) :=
  match r with
  | Done (_, w) =>
      match FileCache_Get lib c w with
      | Done (entry, _) => Some entry
      | Panic _ => None
      end
  | Panic _ => None
  end.

(** A second [Retrieve] on the provider an outcome leaves, after the world
    has changed. *)
Definition retrieveAgain (lib : Collaborators) (r : Outcome)
    (change : World -> World) : Outcome :=
  match r with
  | Done ((p, _), w) => Retrieve lib p (change w)
  | Panic reason => Panic reason
  end.

(** ** Doubles for the collaborators, and a small installation

    The package's tests replace the STS client, the cache directory and the
    credentials file by doubles; so do the scenarios used below to run the
    code on concrete inputs. *)
Module Scenario.

#[export] Instance sts_Credentials_eq_dec : EqDecision sts_Credentials.
Proof. solve_decision. Defined.

#[export] Instance AssumeRoleOutput_eq_dec : EqDecision AssumeRoleOutput.
Proof. solve_decision. Defined.

(** Ten o'clock on some day of the year 2022, and an hour later. *)
Definition tenOClock : time_Time := 63800000000 * time_Second.
Definition elevenOClock : time_Time := tenOClock + 60 * time_Minute.

(** The session the STS double hands out: it expires at eleven. *)
Definition freshSession : AssumeRoleOutput :=
  mkAssumeRoleOutput
    (Some (mkStsCredentials (Some "ASIAFRESH") (Some elevenOClock)
             (Some "fresh-secret") (Some "fresh-token"))).

(** A session obtained earlier and kept in the cache: also good until
    eleven. *)
Definition cachedSession : AssumeRoleOutput :=
  mkAssumeRoleOutput
    (Some (mkStsCredentials (Some "ASIACACHED") (Some elevenOClock)
             (Some "cached-secret") (Some "cached-token"))).

(** What the generated STS client returns beside an error: an output
    whose [Credentials] is nil. *)
Definition emptyOutput : AssumeRoleOutput := mkAssumeRoleOutput None.

Definition accessDenied : error := ext_error "AccessDenied: not authorized".

Definition clientGranting : AssumeRoler := fun _ => (Some freshSession, None).
Definition clientDenying : AssumeRoler := fun _ => (Some emptyOutput, Some accessDenied).
Definition clientDenyingNil : AssumeRoler := fun _ => (None, Some accessDenied).
(** A double that answers with a full session and an error at once. *)
Definition clientGrantingWithError : AssumeRoler :=
  fun _ => (Some freshSession, Some accessDenied).

(** A codec double that knows the three documents of the scenarios. *)
Definition marshal (r : AssumeRoleOutput) : string * option error :=
  if decide (r = cachedSession) then ("{cached session}", None)
  else if decide (r = freshSession) then ("{fresh session}", None)
  else ("{}", None).

Definition unmarshal (data : string) : AssumeRoleOutput * option error :=
  if String.eqb data "{cached session}" then (cachedSession, None)
  else if String.eqb data "{fresh session}" then (freshSession, None)
  else if String.eqb data "{}" then (emptyOutput, None)
  else (emptyOutput, Some (ext_error "invalid character"))%string.

Definition doubles : Collaborators :=
  mkCollaborators marshal unmarshal (fun elems => strings.Join elems "/")
    clientDenyingNil.

Definition roleX : string := "arn:aws:iam::123456789012:role/X".

Definition defaultSection : gmap string string :=
  {[ "aws_access_key_id" := "AKIDEFAULT";
     "aws_secret_access_key" := "default-secret" ]}.

Definition opsSection : gmap string string :=
  {[ "role_arn" := roleX;
     "source_profile" := "default";
     "role_session_name" := "ops-session" ]}.

(** A role-chained profile that omits [source_profile]. *)
Definition orphanSection : gmap string string :=
  {[ "role_arn" := roleX; "role_session_name" := "ops-session" ]}.

(** The credentials file: a static profile, a role-chained one, a
    role-chained one without [source_profile], and an empty one. *)
Definition credentialsFile : IniFile :=
  {[ "default" := defaultSection;
     "ops" := opsSection;
     "orphan" := orphanSection;
     "blank" := ∅ ]}.

Definition credentialsPath : string := "/home/u/.aws/credentials".

(** The credentials of [freshSession] as [Assume] returns them. *)
Definition freshValue : Value :=
  mkValue "ASIAFRESH" "fresh-secret" "fresh-token" SharedCredsProviderName
    "" "" "" "" None.

Definition homeEnv (key : string) : string :=
  if String.eqb key "HOME" then "/home/u" else "".

Definition files (name : string) : error + IniFile :=
  if String.eqb name credentialsPath then inr credentialsFile
  else inl (ext_error "open: no such file or directory").

(** The installation at ten o'clock, the cache directory empty. *)
Definition world0 : World :=
  mkWorld homeEnv files (Some "/home/u") ∅ (fun _ => None) tenOClock [].

(** The file the default cache provider uses for profile [ops]. *)
Definition opsCacheFile : string :=
  "/home/u/.aws/cli/cache/default--arn_aws_iam__123456789012_role/X--ops-session.json".

(** The same installation with a session in the cache. *)
Definition worldCached : World :=
  set_disk {[ opsCacheFile := "{cached session}" ]} world0.

(** The same installation with a cache directory that cannot be written. *)
Definition worldReadOnly : World :=
  mkWorld homeEnv files (Some "/home/u") ∅
    (fun _ => Some (ext_error "permission denied")) tenOClock [].

(** The installation after the credentials file was removed. *)
Definition withoutCredentialsFile (w : World) : World :=
  mkWorld (environ w) (fun _ => inl (ext_error "open: no such file or directory"))
    (current_user w) (disk w) (write_fault w) (now w) (sts_calls w).

(** Options as the callers of [NewSharedCredentialsWithOptions] pass them. *)
Definition withCache (p : SharedCredentialsProvider) : SharedCredentialsProvider :=
  mkProvider (Expiry p) (Filename p) (Profile p) (retrieved p)
    (CacheProvider p) true (STS p).

Definition withClient (c : AssumeRoler) (p : SharedCredentialsProvider)
  : SharedCredentialsProvider :=
  set_STS (mkSTSOptions (Duration (STS p)) (ExpiryWindow (STS p)) (Some c)) p.

(** The request [Assume] sends for profile [ops]. *)
Definition opsRequest : AssumeRoleInput :=
  mkAssumeRoleInput (Some 900) (Some roleX) (Some "ops-session") None.

Definition provider (profile : string)
    (options : list (SharedCredentialsProvider -> SharedCredentialsProvider))
  : SharedCredentialsProvider :=
  NewSharedCredentialsWithOptions doubles "" profile options.

(** Providers that are given the path of the credentials file. *)
Definition providerAt (profile : string)
    (options : list (SharedCredentialsProvider -> SharedCredentialsProvider))
  : SharedCredentialsProvider :=
  NewSharedCredentialsWithOptions doubles credentialsPath profile options.

End Scenario.

(** * Properties *)

(** ** Strings *)

Lemma app_cons (c : ascii) (s t : string) :
  String c s +:+ t = String c (s +:+ t).
Proof. reflexivity. Qed.

Lemma app_nil_l (t : string) : "" +:+ t = t.
Proof. reflexivity. Qed.

Lemma app_length_sum (s t : string) :
  String.length (s +:+ t) = (String.length s + String.length t)%nat.
Proof.
  induction s as [|c s IH]; [reflexivity |].
  rewrite app_cons. simpl. now rewrite IH.
Qed.

Lemma app_assoc_string (s t u : string) : (s +:+ t) +:+ u = s +:+ (t +:+ u).
Proof.
  induction s as [|c s IH]; [reflexivity |].
  rewrite !app_cons. now rewrite IH.
Qed.

(** A string is not its own proper extension. *)
Lemma app_longer (s t : string) : t <> "" -> s <> s +:+ t.
Proof.
  intros Ht Heq. apply (f_equal String.length) in Heq.
  rewrite app_length_sum in Heq. destruct t; [congruence | simpl in Heq; lia].
Qed.

(** Cancellation of a common suffix. *)
Lemma app_cancel_r (t s1 s2 : string) : s1 +:+ t = s2 +:+ t -> s1 = s2.
Proof.
  revert s2. induction s1 as [|c s1 IH]; intros [|d s2] Heq.
  - reflexivity.
  - exfalso. apply (f_equal String.length) in Heq.
    rewrite !app_length_sum in Heq. simpl in Heq. lia.
  - exfalso. apply (f_equal String.length) in Heq.
    rewrite !app_length_sum in Heq. simpl in Heq. lia.
  - rewrite !app_cons in Heq. injection Heq as -> Heq. f_equal. now apply IH.
Qed.

(** Cancellation of a common prefix. *)
Lemma app_cancel_l (t s1 s2 : string) : t +:+ s1 = t +:+ s2 -> s1 = s2.
Proof.
  induction t as [|c t IH]; intros Heq; [exact Heq |].
  rewrite !app_cons in Heq. injection Heq as Heq. now apply IH.
Qed.

(** [ReplaceAll] rewrites the string byte by byte. *)
Lemma ReplaceAll_bytes (s : string) (old new : ascii) :
  list_ascii_of_string (strings.ReplaceAll s old new)
  = List.map (fun c => if Ascii.eqb c old then new else c) (list_ascii_of_string s).
Proof. induction s as [|c s IH]; simpl; [reflexivity | now rewrite IH]. Qed.

(** No [old] byte survives, when [new] differs from it. *)
Lemma ReplaceAll_removes (s : string) (old new : ascii) :
  new <> old -> strings.Contains (strings.ReplaceAll s old new) old = false.
Proof.
  intros Hne. induction s as [|c s IH]; simpl; [reflexivity |].
  rewrite IH, orb_false_r. destruct (Ascii.eqb_spec c old) as [->|Hc].
  - now apply Ascii.eqb_neq.
  - now apply Ascii.eqb_neq.
Qed.

(** On strings without the [new] byte, [ReplaceAll] loses nothing. *)
Lemma ReplaceAll_inj (old new : ascii) (s t : string) :
  strings.Contains s new = false -> strings.Contains t new = false ->
  strings.ReplaceAll s old new = strings.ReplaceAll t old new -> s = t.
Proof.
  revert t. induction s as [|c s IH]; intros [|d t] Hs Ht Heq; simpl in *;
    try discriminate; [reflexivity |].
  apply orb_false_iff in Hs as [Hc Hs]. apply orb_false_iff in Ht as [Hd Ht].
  apply Ascii.eqb_neq in Hc, Hd.
  injection Heq as Hhead Htail. f_equal; [| now apply IH].
  destruct (Ascii.eqb_spec c old) as [->|Hco], (Ascii.eqb_spec d old) as [->|Hdo];
    congruence.
Qed.

(** ** The cache key *)

(** The key written out: profile, separator, sanitized role, and the
    session name after a second separator when there is one. *)
Lemma getCacheKey_shape (profile roleArn roleSessionName : string) :
  getCacheKey profile roleArn roleSessionName =
  if String.eqb roleSessionName "" then
    profile +:+ "--" +:+ strings.ReplaceAll roleArn ":"%char "_"%char
  else
    (profile +:+ "--" +:+ strings.ReplaceAll roleArn ":"%char "_"%char)
      +:+ "--" +:+ roleSessionName.
Proof. unfold getCacheKey. simpl. reflexivity. Qed.

Lemma getCacheKey_profile_inj (p p' a s : string) :
  getCacheKey p a s = getCacheKey p' a s -> p = p'.
Proof.
  rewrite !getCacheKey_shape. destruct (String.eqb s "").
  - apply app_cancel_r.
  - rewrite !app_assoc_string. apply app_cancel_r.
Qed.

Lemma getCacheKey_role_inj (p a a' s : string) :
  getCacheKey p a s = getCacheKey p a' s ->
  strings.ReplaceAll a ":"%char "_"%char = strings.ReplaceAll a' ":"%char "_"%char.
Proof.
  rewrite !getCacheKey_shape. destruct (String.eqb s ""); intros Heq.
  - apply app_cancel_l in Heq. now apply app_cancel_l in Heq.
  - rewrite !app_assoc_string in Heq.
    apply app_cancel_l in Heq. apply app_cancel_l in Heq.
    now apply app_cancel_r in Heq.
Qed.

Lemma getCacheKey_session_inj (p a s s' : string) :
  getCacheKey p a s = getCacheKey p a s' -> s = s'.
Proof.
  rewrite !getCacheKey_shape.
  destruct (String.eqb_spec s "") as [->|Hs], (String.eqb_spec s' "") as [->|Hs'];
    intros Heq.
  - reflexivity.
  - exfalso. revert Heq. apply app_longer. discriminate.
  - exfalso. symmetry in Heq. revert Heq. apply app_longer. discriminate.
  - apply app_cancel_l in Heq. now apply app_cancel_l in Heq.
Qed.

(** C6, as stated, fails: two role identifiers that differ only in a colon
    against an underscore, with the same profile and session name, get the
    same key. *)
Lemma getCacheKey_collision :
  "arn:aws:iam::123456789012:role/X" <> "arn_aws:iam::123456789012:role/X"
  /\ getCacheKey "default" "arn:aws:iam::123456789012:role/X" "ops-session"
     = getCacheKey "default" "arn_aws:iam::123456789012:role/X" "ops-session".
Proof. split; [discriminate | reflexivity]. Qed.

(** C6 (amended). The cache key replaces every colon of the role identifier
    by an underscore, joins the profile name and the sanitized identifier
    with the separator [--], and appends the session name after the same
    separator when it is not empty. Two triples that differ in exactly one
    field get distinct keys when that field is the profile or the session
    name, and, when it is the role identifier, as long as the two
    identifiers still differ once sanitized, which is so whenever neither
    contains an underscore. *)
Theorem getCacheKey_distinct_keys
    (profile roleArn roleSessionName profile' roleArn' roleSessionName' : string) :
  list_ascii_of_string (strings.ReplaceAll roleArn ":"%char "_"%char)
  = List.map (fun c => if Ascii.eqb c ":"%char then "_"%char else c)
      (list_ascii_of_string roleArn)
  /\ getCacheKey profile roleArn roleSessionName
     = (if String.eqb roleSessionName "" then
          profile +:+ "--" +:+ strings.ReplaceAll roleArn ":"%char "_"%char
        else
          (profile +:+ "--" +:+ strings.ReplaceAll roleArn ":"%char "_"%char)
            +:+ "--" +:+ roleSessionName)
  /\ (profile <> profile' ->
      getCacheKey profile roleArn roleSessionName
      <> getCacheKey profile' roleArn roleSessionName)
  /\ (strings.ReplaceAll roleArn ":"%char "_"%char
      <> strings.ReplaceAll roleArn' ":"%char "_"%char ->
      getCacheKey profile roleArn roleSessionName
      <> getCacheKey profile roleArn' roleSessionName)
  /\ (roleArn <> roleArn' ->
      strings.Contains roleArn "_"%char = false ->
      strings.Contains roleArn' "_"%char = false ->
      getCacheKey profile roleArn roleSessionName
      <> getCacheKey profile roleArn' roleSessionName)
  /\ (roleSessionName <> roleSessionName' ->
      getCacheKey profile roleArn roleSessionName
      <> getCacheKey profile roleArn roleSessionName').
Proof.
  split; [apply ReplaceAll_bytes |].
  split; [apply getCacheKey_shape |].
  split; [intros Hne Heq; apply Hne; eapply getCacheKey_profile_inj; eassumption |].
  split; [intros Hne Heq; apply Hne; eapply getCacheKey_role_inj; eassumption |].
  split.
  - intros Hne Hu Hu' Heq. apply Hne.
    apply (ReplaceAll_inj ":"%char "_"%char); try assumption.
    eapply getCacheKey_role_inj; eassumption.
  - intros Hne Heq. apply Hne. eapply getCacheKey_session_inj; eassumption.
Qed.

(** The amended C6 at two role identifiers without underscores. *)
Lemma getCacheKey_distinct_keys_witness :
  "arn:aws:iam::123456789012:role/X" <> "arn:aws:iam::123456789012:role/Y"
  /\ getCacheKey "default" "arn:aws:iam::123456789012:role/X" "ops-session"
     <> getCacheKey "default" "arn:aws:iam::123456789012:role/Y" "ops-session".
Proof.
  split; [discriminate |].
  apply (getCacheKey_distinct_keys "default" "arn:aws:iam::123456789012:role/X"
           "ops-session" "default" "arn:aws:iam::123456789012:role/Y" "ops-session");
    [discriminate | reflexivity | reflexivity].
Defined.

(** ** Validation *)

(** [loadProfile] leaves the world alone, never panics, and validates the
    section it finds. *)
Lemma loadProfile_eq (filename profile : string) (w : World) :
  loadProfile filename profile w = Done (loadedProfile w filename profile, w).
Proof.
  unfold loadProfile, loadedProfile, ini_Load, mbind, M_bind, mret, M_ret.
  destruct (ini_files w filename) as [err|config]; [reflexivity |].
  destruct (config !! profile); reflexivity.
Qed.

(** Validation succeeds exactly on a static profile with both keys and on a
    role profile with a source profile; it then returns the value as it is. *)
Lemma validate_success (value : Value) (filename profile : string) :
  validate value filename profile = (value, None)
  <-> (RoleARN value = "" /\ AccessKeyID value <> "" /\ SecretAccessKey value <> "")
      \/ (RoleARN value <> "" /\ SourceProfile value <> "").
Proof.
  unfold validate.
  destruct (String.eqb_spec (RoleARN value) "") as [Hr|Hr];
    [destruct (String.eqb_spec (AccessKeyID value) "") as [Ha|Ha];
       [| destruct (String.eqb_spec (SecretAccessKey value) "") as [Hs|Hs]]
    | destruct (String.eqb_spec (SourceProfile value) "") as [Hp|Hp]];
    (split; [try discriminate; intros _; tauto |]);
    try (intros [[? [? ?]]|[? ?]]; congruence).
Qed.

(** A validation without error returns the value it was given. *)
Lemma validate_no_error (value : Value) (filename profile : string) :
  snd (validate value filename profile) = None ->
  validate value filename profile = (value, None).
Proof.
  unfold validate.
  destruct (String.eqb (RoleARN value) ""), (String.eqb (AccessKeyID value) ""),
    (String.eqb (SecretAccessKey value) ""), (String.eqb (SourceProfile value) "");
    cbn [snd]; intros H; try discriminate H; reflexivity.
Qed.

(** C8, as stated, fails: a profile without a role and with neither key
    fails with the error of the missing access key, not with that of the
    missing secret key. *)
Lemma validate_both_keys_missing :
  RoleARN Value_ProviderNameOnly = ""
  /\ SecretAccessKey Value_ProviderNameOnly = ""
  /\ errorCode (validate Value_ProviderNameOnly "credentials" "default")
     = Some "SharedCredsAccessKey"
  /\ errorCode (validate Value_ProviderNameOnly "credentials" "default")
     <> Some "SharedCredsSecret".
Proof. repeat split; try reflexivity. discriminate. Qed.

(** C8 (amended). Validation fails with the missing-source-profile error
    exactly when the role is set and the source profile is empty; for a
    profile without a role it fails with the missing-access-key error
    exactly when the access key id is empty, and with the missing-secret-key
    error exactly when the access key id is present and the secret access
    key is empty (the access key is checked first); in every other case it
    succeeds and returns the value unchanged. Loading a profile whose
    section exists is validating the value read from the section. *)
Theorem validate_outcomes (value : Value) (filename profile : string) :
  (errorCode (validate value filename profile) = Some "SharedCredsSourceProfile"
   <-> RoleARN value <> "" /\ SourceProfile value = "")
  /\ (errorCode (validate value filename profile) = Some "SharedCredsAccessKey"
      <-> RoleARN value = "" /\ AccessKeyID value = "")
  /\ (errorCode (validate value filename profile) = Some "SharedCredsSecret"
      <-> RoleARN value = "" /\ AccessKeyID value <> "" /\ SecretAccessKey value = "")
  /\ (validate value filename profile = (value, None)
      <-> (RoleARN value = "" /\ AccessKeyID value <> "" /\ SecretAccessKey value <> "")
          \/ (RoleARN value <> "" /\ SourceProfile value <> ""))
  /\ (errorCode (validate value filename profile) = None
      -> validate value filename profile = (value, None))
  /\ (forall (w : World) (config : IniFile) (iniProfile : gmap string string),
        ini_files w filename = inr config ->
        config !! profile = Some iniProfile ->
        loadProfile filename profile w
        = Done (validate (sectionValue iniProfile) filename profile, w)).
Proof.
  unfold validate, errorCode.
  destruct (String.eqb_spec (RoleARN value) "") as [Hr|Hr];
    [destruct (String.eqb_spec (AccessKeyID value) "") as [Ha|Ha];
       [| destruct (String.eqb_spec (SecretAccessKey value) "") as [Hs|Hs]]
    | destruct (String.eqb_spec (SourceProfile value) "") as [Hp|Hp]];
    cbn [snd fmap option_fmap option_map Code];
    (repeat split; try discriminate; try tauto; try congruence;
     try (intros w config iniProfile Hf Hc; rewrite loadProfile_eq;
          unfold loadedProfile; rewrite Hf, Hc; reflexivity);
     try (intros [[? [? ?]]|[? ?]]; congruence);
     try (intros [? [? ?]]; congruence);
     try (intros [? ?]; congruence)).
Qed.

(** ** Running the provider *)

Ltac run :=
  unfold deref, panic, os_Getenv, time_Now, call_AssumeRole, user_Current,
    ini_Load in *;
  unfold mbind, M_bind, mret, M_ret in *;
  cbv beta iota in *.

Lemma same_session_state_refl (p : SharedCredentialsProvider) :
  same_session_state p p.
Proof. repeat split. Qed.

Section Properties.

Variable lib : Collaborators.

(** [filename] only reads the environment: it returns, and changes
    nothing but the [Filename] field. *)
Lemma filename_total (p : SharedCredentialsProvider) (w : World) :
  exists p1 r, filename lib p w = Done ((p1, r), w)
               /\ same_session_state p p1 /\ Profile p1 = Profile p.
Proof.
  unfold filename. run.
  destruct (String.eqb (Filename p) ""); [| do 2 eexists; repeat split].
  cbn [Filename set_Filename].
  destruct (negb (String.eqb (environ w "AWS_SHARED_CREDENTIALS_FILE") ""));
    [do 2 eexists; repeat split |].
  destruct (String.eqb (environ w "HOME") ""); cbn [Filename set_Filename].
  - destruct (String.eqb (environ w "USERPROFILE") "");
      do 2 eexists; repeat split.
  - destruct (String.eqb (environ w "HOME") "");
      do 2 eexists; repeat split.
Qed.

(** [profile] only reads the environment and only sets [Profile]. *)
Lemma profile_total (p : SharedCredentialsProvider) (w : World) :
  exists p1 name, profile p w = Done ((p1, name), w)
                  /\ same_session_state p p1.
Proof.
  unfold profile. run.
  destruct (String.eqb (Profile p) ""); cbn [Profile set_Profile].
  - destruct (String.eqb (environ w "AWS_PROFILE") "");
      do 2 eexists; repeat split.
  - destruct (String.eqb (Profile p) ""); do 2 eexists; repeat split.
Qed.

(** The defaults of [Assume] are total; they leave the session state,
    the role and the source profile alone, and set a client. *)
Lemma Assume_defaults_total (p : SharedCredentialsProvider)
    (credentials : Value) (w : World) :
  exists p1 c1, Assume_defaults lib p credentials w = Done ((p1, c1), w)
                /\ same_session_state p p1
                /\ (exists client, Client (STS p1) = Some client)
                /\ RoleARN c1 = RoleARN credentials
                /\ SourceProfile c1 = SourceProfile credentials.
Proof.
  unfold Assume_defaults. run.
  destruct (String.eqb (RoleSessionName credentials) "");
    destruct (Duration (STS p) =? 0);
    destruct p as [e f pr r cp c [d ew [cl|]]]; cbn;
    do 2 eexists; (split; [reflexivity |]); repeat split; eauto.
Qed.

(** [Assume] is its three parts in sequence. *)
Lemma Assume_eq (p : SharedCredentialsProvider) (credentials source : Value)
    (w : World) (p1 : SharedCredentialsProvider) (c1 : Value) :
  Assume_defaults lib p credentials w = Done ((p1, c1), w) ->
  Assume lib p credentials source w =
  match Assume_roleOutput p1 c1 w with
  | Done ((roleOutput, err), w2) => Assume_result p1 roleOutput err w2
  | Panic r => Panic r
  end.
Proof.
  intros Hd. unfold Assume. unfold mbind at 1, M_bind at 1. rewrite Hd.
  unfold mbind, M_bind.
  destruct (Assume_roleOutput p1 c1 w) as [[[ro err] w2]|]; reflexivity.
Qed.

(** When the last part of [Assume] returns an error, it is the error it
    was given, and nothing was recorded. *)
Lemma Assume_result_error (p p' : SharedCredentialsProvider)
    (roleOutput : option AssumeRoleOutput) (err : option error)
    (v : Value) (e : error) (w w' : World) :
  Assume_result p roleOutput err w = Done ((p', (v, Some e)), w') ->
  p' = p /\ err = Some e /\ v = Value_ProviderNameOnly /\ w' = w.
Proof.
  unfold Assume_result. run. destruct err as [e0|].
  - intros [= <- <- <- <-]. repeat split.
  - destruct roleOutput as [[[[[ak|] [exp|] [sk|] [tok|]]|]]|]; cbn; discriminate.
Qed.

(** When the last part of [Assume] succeeds, the response had every
    pointer set, its expiration was recorded with the configured window,
    and its credentials are the ones returned. *)
Lemma Assume_result_success (p p' : SharedCredentialsProvider)
    (roleOutput : option AssumeRoleOutput) (err : option error)
    (v : Value) (w w' : World) :
  Assume_result p roleOutput err w = Done ((p', (v, None)), w') ->
  err = None /\ w' = w
  /\ exists exp ak sk tok,
      roleOutput = Some (mkAssumeRoleOutput
                           (Some (mkStsCredentials (Some ak) (Some exp)
                                    (Some sk) (Some tok))))
      /\ p' = set_Expiry
                (Expiry_SetExpiration (Expiry p) exp (ExpiryWindow (STS p))) p
      /\ v = mkValue ak sk tok SharedCredsProviderName "" "" "" "" None.
Proof.
  unfold Assume_result. run. destruct err as [e0|]; [discriminate |].
  destruct roleOutput as [[[[[ak|] [exp|] [sk|] [tok|]]|]]|]; cbn;
    try discriminate.
  intros [= <- <- <-]. repeat split. do 4 eexists. repeat split.
Qed.

(** Without the cache, the client is called once and its answer is
    handed on as it is. *)
Lemma Assume_roleOutput_no_cache (p : SharedCredentialsProvider)
    (credentials : Value) (w : World) (client : AssumeRoler) :
  Cache p = false -> Client (STS p) = Some client ->
  Assume_roleOutput p credentials w
  = Done (client (assumeRoleInput p credentials),
          log_sts_call (assumeRoleInput p credentials) w).
Proof.
  intros Hc Hcl. unfold Assume_roleOutput. rewrite Hc, Hcl. reflexivity.
Qed.

(** With the cache and an entry that is not expired, the answer is the
    one of the cache, and the client is not called. *)
Lemma Assume_roleOutput_fresh (p : SharedCredentialsProvider)
    (credentials : Value) (w w1 w2 : World)
    (provider : CacheProvider_interface) (cache : Cache_interface) :
  Cache p = true -> CacheProvider p = Some provider ->
  CacheProvider_Get provider (SourceProfile credentials) (RoleARN credentials)
    (RoleSessionName credentials) w = Done (cache, w1) ->
  Cache_IsExpired cache w1 = Done (false, w2) ->
  Assume_roleOutput p credentials w = Cache_Get cache w2.
Proof.
  intros Hc Hp Hg He. unfold Assume_roleOutput. rewrite Hc, Hp. run.
  cbv beta iota. rewrite Hg, He. reflexivity.
Qed.

(** With the cache and an expired entry, the client is called once; the
    cache is written when, and only when, the client returned an error,
    and then the error handed on is the one of the write. *)
Lemma Assume_roleOutput_stale (p : SharedCredentialsProvider)
    (credentials : Value) (w w1 w2 : World)
    (provider : CacheProvider_interface) (cache : Cache_interface)
    (client : AssumeRoler) :
  Cache p = true -> CacheProvider p = Some provider ->
  CacheProvider_Get provider (SourceProfile credentials) (RoleARN credentials)
    (RoleSessionName credentials) w = Done (cache, w1) ->
  Cache_IsExpired cache w1 = Done (true, w2) ->
  Client (STS p) = Some client ->
  Assume_roleOutput p credentials w
  = match client (assumeRoleInput p credentials) with
    | (roleOutput, Some _) =>
        match Cache_Set cache roleOutput
                (log_sts_call (assumeRoleInput p credentials) w2) with
        | Done (err, w4) => Done ((roleOutput, err), w4)
        | Panic r => Panic r
        end
    | (roleOutput, None) =>
        Done ((roleOutput, None),
              log_sts_call (assumeRoleInput p credentials) w2)
    end.
Proof.
  intros Hc Hp Hg He Hcl. unfold Assume_roleOutput. rewrite Hc, Hp, Hcl. run.
  cbv beta iota. rewrite Hg, He. cbv beta iota delta [negb].
  destruct (client (assumeRoleInput p credentials)) as [ro [e|]]; [| reflexivity].
  destruct (Cache_Set cache ro _) as [[err w4]|]; reflexivity.
Qed.

(** An [Assume] that returns an error has recorded nothing. *)
Lemma Assume_error_state (p p' : SharedCredentialsProvider)
    (credentials source v : Value) (e : error) (w w' : World) :
  Assume lib p credentials source w = Done ((p', (v, Some e)), w') ->
  same_session_state p p'.
Proof.
  destruct (Assume_defaults_total p credentials w)
    as (p1 & c1 & Hd & Hs & _).
  rewrite (Assume_eq _ _ _ _ _ _ Hd).
  destruct (Assume_roleOutput p1 c1 w) as [[[ro err] w2]|]; [| discriminate].
  intros H. apply Assume_result_error in H as (-> & _). exact Hs.
Qed.

(** An [Assume] that succeeds has recorded the expiration of the response
    whose credentials it returns, with the configured window, and has
    left the retrieved flag as it was. *)
Lemma Assume_success_state (p p' : SharedCredentialsProvider)
    (credentials source v : Value) (w w' : World) :
  Assume lib p credentials source w = Done ((p', (v, None)), w') ->
  retrieved p' = retrieved p
  /\ exists exp ak sk tok,
      Expiry p' = Expiry_SetExpiration (Expiry p) exp (ExpiryWindow (STS p))
      /\ v = mkValue ak sk tok SharedCredsProviderName "" "" "" "" None.
Proof.
  destruct (Assume_defaults_total p credentials w)
    as (p1 & c1 & Hd & (Hr & He & Hw & _) & _).
  rewrite (Assume_eq _ _ _ _ _ _ Hd).
  destruct (Assume_roleOutput p1 c1 w) as [[[ro err] w2]|]; [| discriminate].
  intros H. apply Assume_result_success in H
    as (_ & _ & exp & ak & sk & tok & _ & -> & ->).
  split; [exact Hr |]. exists exp, ak, sk, tok.
  cbn [Expiry set_Expiry]. rewrite He, Hw. split; reflexivity.
Qed.

(** ** Retrieve *)

(** [Retrieve] written out over the results of its helpers. *)
Lemma Retrieve_eq (p p1 p2 : SharedCredentialsProvider) (w : World)
    (fname : string) (ferr : option error) (prof : string) :
  filename lib (set_retrieved false p) w = Done ((p1, (fname, ferr)), w) ->
  profile p1 w = Done ((p2, prof), w) ->
  Retrieve lib p w =
  match ferr with
  | Some e => Done ((p1, (Value_ProviderNameOnly, Some e)), w)
  | None =>
      match loadedProfile w fname prof with
      | (_, Some e) => Done ((p2, (Value_ProviderNameOnly, Some e)), w)
      | (creds, None) =>
          if negb (String.eqb (RoleARN creds) "") then
            let creds :=
              if String.eqb (SourceProfile creds) ""
              then set_SourceProfile "default" creds else creds in
            match loadedProfile w fname (SourceProfile creds) with
            | (_, Some e) => Done ((p2, (Value_ProviderNameOnly, Some e)), w)
            | (sourceCreds, None) => Assume lib p2 creds sourceCreds w
            end
          else Done ((set_retrieved true p2, (creds, None)), w)
      end
  end.
Proof.
  intros Hf Hp. unfold Retrieve. unfold mbind at 1, M_bind at 1.
  cbv zeta. rewrite Hf. destruct ferr as [e|]; [reflexivity |].
  unfold mbind at 1, M_bind at 1. rewrite Hp.
  unfold mbind at 1, M_bind at 1. rewrite loadProfile_eq.
  destruct (loadedProfile w fname prof) as [creds [e|]]; [reflexivity |].
  destruct (negb (String.eqb (RoleARN creds) "")); [| reflexivity].
  cbv zeta. unfold mbind at 1, M_bind at 1. rewrite loadProfile_eq.
  destruct (loadedProfile w fname _) as [src [e|]]; reflexivity.
Qed.

(** Every call of [Retrieve] starts by clearing the retrieved flag. *)
Lemma Retrieve_resets (p : SharedCredentialsProvider) (w : World) :
  Retrieve lib p w = Retrieve lib (set_retrieved false p) w.
Proof. reflexivity. Qed.

(** A profile that loads with a role has a source profile: the default
    that [Retrieve] would give it is never needed. *)
Lemma loadedProfile_source_profile (w : World) (fname prof : string)
    (creds : Value) :
  loadedProfile w fname prof = (creds, None) ->
  RoleARN creds <> "" -> SourceProfile creds <> "".
Proof.
  unfold loadedProfile.
  destruct (ini_files w fname) as [err|config]; [discriminate |].
  destruct (config !! prof) as [sec|]; [| discriminate].
  intros Hv Hr.
  assert (Hval : validate (sectionValue sec) fname prof = (sectionValue sec, None))
    by (apply validate_no_error; rewrite Hv; reflexivity).
  assert (Hcreds : creds = sectionValue sec) by congruence. subst creds.
  apply validate_success in Hval as [[Hr' _]|[_ Hs]]; [contradiction | exact Hs].
Qed.

(** The state after a [Retrieve] that returned an error: the flag is
    cleared and the recorded expiration is the one from before. *)
Lemma Retrieve_error_state (p p' : SharedCredentialsProvider) (w w' : World)
    (v : Value) (e : error) :
  Retrieve lib p w = Done ((p', (v, Some e)), w') ->
  retrieved p' = false /\ Expiry p' = Expiry p.
Proof.
  destruct (filename_total (set_retrieved false p) w)
    as (p1 & [fname ferr] & Hf & (Hr1 & He1 & _) & _).
  destruct (profile_total p1 w) as (p2 & prof & Hp & (Hr2 & He2 & _)).
  rewrite (Retrieve_eq _ _ _ _ _ _ _ Hf Hp).
  cbn [retrieved Expiry set_retrieved] in Hr1, He1.
  assert (H2 : retrieved p2 = false /\ Expiry p2 = Expiry p)
    by (split; congruence).
  destruct ferr as [e0|]; [intros [= <- _ _ _]; split; congruence |].
  destruct (loadedProfile w fname prof) as [creds [e0|]];
    [intros [= <- _ _ _]; exact H2 |].
  destruct (negb (String.eqb (RoleARN creds) "")); [| discriminate].
  cbv zeta.
  destruct (loadedProfile w fname _) as [src [e0|]];
    [intros [= <- _ _ _]; exact H2 |].
  intros H. apply Assume_error_state in H as (Hr & He & _).
  split; congruence.
Qed.

(** C5. For a profile without a role that passes validation, [Retrieve]
    returns the fields of the profile as they stand in the file, sets the
    retrieved flag, and [IsExpired] is false at every later time. *)
Theorem Retrieve_static_profile (p p1 p2 : SharedCredentialsProvider)
    (w : World) (fname prof : string) (config : IniFile)
    (iniProfile : gmap string string) :
  filename lib (set_retrieved false p) w = Done ((p1, (fname, None)), w) ->
  profile p1 w = Done ((p2, prof), w) ->
  ini_files w fname = inr config ->
  config !! prof = Some iniProfile ->
  Key_String iniProfile "role_arn" = "" ->
  Key_String iniProfile "aws_access_key_id" <> "" ->
  Key_String iniProfile "aws_secret_access_key" <> "" ->
  exists (p' : SharedCredentialsProvider) (v : Value),
    Retrieve lib p w = Done ((p', (v, None)), w)
    /\ AccessKeyID v = Key_String iniProfile "aws_access_key_id"
    /\ SecretAccessKey v = Key_String iniProfile "aws_secret_access_key"
    /\ SessionToken v = Key_String iniProfile "aws_session_token"
    /\ retrieved p' = true
    /\ forall now : time_Time, IsExpired p' now = false.
Proof.
  intros Hf Hp Hi Hc Hrole Hak Hsk.
  exists (set_retrieved true p2), (sectionValue iniProfile).
  rewrite (Retrieve_eq _ _ _ _ _ _ _ Hf Hp).
  unfold loadedProfile. rewrite Hi, Hc.
  rewrite (proj2 (validate_success (sectionValue iniProfile) fname prof))
    by (left; repeat split; assumption).
  cbn [RoleARN sectionValue]. rewrite Hrole. cbn [String.eqb negb].
  repeat split.
Qed.


(** The state after a [Retrieve] that succeeded: either the profile was
    static, the flag is set and the recorded expiration is untouched; or a
    role was assumed, the flag is cleared and the expiration of the
    response was recorded. *)
Lemma Retrieve_success_state (p p' : SharedCredentialsProvider) (w w' : World)
    (v : Value) :
  Retrieve lib p w = Done ((p', (v, None)), w') ->
  (retrieved p' = true /\ Expiry p' = Expiry p)
  \/ (retrieved p' = false
      /\ exists exp ak sk tok,
          Expiry p' = Expiry_SetExpiration (Expiry p) exp (ExpiryWindow (STS p))
          /\ v = mkValue ak sk tok SharedCredsProviderName "" "" "" "" None).
Proof.
  destruct (filename_total (set_retrieved false p) w)
    as (p1 & [fname ferr] & Hf & (Hr1 & He1 & Hw1 & _) & _).
  destruct (profile_total p1 w) as (p2 & prof & Hp & (Hr2 & He2 & Hw2 & _)).
  rewrite (Retrieve_eq _ _ _ _ _ _ _ Hf Hp).
  cbn [retrieved Expiry STS set_retrieved] in Hr1, He1, Hw1.
  destruct ferr as [e0|]; [discriminate |].
  destruct (loadedProfile w fname prof) as [creds [e0|]]; [discriminate |].
  destruct (negb (String.eqb (RoleARN creds) "")).
  - cbv zeta. destruct (loadedProfile w fname _) as [src [e0|]]; [discriminate |].
    intros H. apply Assume_success_state in H
      as (Hr & exp & ak & sk & tok & He & ->).
    right. split; [congruence |]. exists exp, ak, sk, tok.
    split; [congruence | reflexivity].
  - intros [= <- _ _]. left. cbn [retrieved Expiry set_retrieved].
    split; [reflexivity | congruence].
Qed.



(** C10 (amended). Every call of [Retrieve] clears the retrieved flag
    before anything else, and a [Retrieve] that returns an error leaves it
    cleared and leaves the recorded expiration as it was. From then on
    [IsExpired] is the verdict of the recorded expiration alone: true when
    that expiration is at or before the current time, as for a provider that
    has only ever resolved static credentials, and false while an
    expiration recorded by an earlier role assumption still lies ahead. *)
Theorem Retrieve_error_clears_retrieved (p p' : SharedCredentialsProvider)
    (w w' : World) (v : Value) (e : error) :
  Retrieve lib p w = Done ((p', (v, Some e)), w') ->
  Retrieve lib p w = Retrieve lib (set_retrieved false p) w
  /\ retrieved p' = false
  /\ Expiry p' = Expiry p
  /\ (forall now : time_Time,
        IsExpired p' now = Expiry_IsExpired (Expiry p) now)
  /\ (forall now : time_Time,
        expiration (Expiry p) <= now -> IsExpired p' now = true)
  /\ (forall now : time_Time,
        now < expiration (Expiry p) -> IsExpired p' now = false)
  /\ (forall (p0 : SharedCredentialsProvider) (w0 w1 : World) (v0 : Value)
             (now : time_Time),
        Expiry p0 = Expiry_zero ->
        Retrieve lib p0 w0 = Done ((p, (v0, None)), w1) ->
        retrieved p = true ->
        0 <= now -> IsExpired p' now = true).
Proof.
  intros H. apply Retrieve_error_state in H as [Hr He].
  split; [reflexivity |]. split; [exact Hr |]. split; [exact He |].
  assert (Hx : forall now, IsExpired p' now = Expiry_IsExpired (Expiry p) now)
    by (intros now; unfold IsExpired; rewrite Hr, He; reflexivity).
  split; [exact Hx |]. unfold Expiry_IsExpired in Hx.
  split; [intros now Hn; rewrite Hx; now apply Z.leb_le |].
  split; [intros now Hn; rewrite Hx; now apply Z.leb_gt |].
  intros p0 w0 w1 v0 now Hz H0 Ht Hn. rewrite Hx. apply Z.leb_le.
  apply Retrieve_success_state in H0 as [[_ He0]|[Hf _]]; [| congruence].
  rewrite He0, Hz. exact Hn.
Qed.

(** ** Assume and the cache *)

(** The file cache reports every entry as expired, whatever is stored. *)
Lemma FileCache_IsExpired_always (c : FileCache) (w : World) :
  FileCache_IsExpired c w = Done (true, w).
Proof. reflexivity. Qed.

(** What [FileCache_Set] stores can be read back from the same file, when
    the codec round-trips the response. *)
Lemma FileCache_Set_Get (c : FileCache) (response : AssumeRoleOutput)
    (data : string) (w : World) :
  json_Marshal lib response = (data, None) ->
  json_Unmarshal lib data = (response, None) ->
  write_fault w (FileName c) = None ->
  exists w', FileCache_Set lib c (Some response) w = Done (None, w')
             /\ FileCache_Get lib c w' = Done ((Some response, None), w').
Proof.
  intros Hm Hu Hw. unfold FileCache_Set, FileCache_Get, ioutil_WriteFile,
    ioutil_ReadFile. run. rewrite Hm, Hw. eexists. split; [reflexivity |].
  cbn [disk set_disk]. rewrite lookup_insert_eq, Hu. reflexivity.
Qed.

(** Without the cache, an error of the client is the error of [Assume]. *)
Lemma Assume_no_cache_error (p p1 : SharedCredentialsProvider)
    (credentials source c1 : Value) (w : World) (client : AssumeRoler)
    (roleOutput : option AssumeRoleOutput) (e : error) :
  Assume_defaults lib p credentials w = Done ((p1, c1), w) ->
  Cache p1 = false -> Client (STS p1) = Some client ->
  client (assumeRoleInput p1 c1) = (roleOutput, Some e) ->
  Assume lib p credentials source w
  = Done ((p1, (Value_ProviderNameOnly, Some e)),
          log_sts_call (assumeRoleInput p1 c1) w).
Proof.
  intros Hd Hc Hcl Hr. rewrite (Assume_eq _ _ _ _ _ _ Hd).
  rewrite (Assume_roleOutput_no_cache _ _ _ _ Hc Hcl), Hr. reflexivity.
Qed.

(** With the cache and an entry that is not expired, [Assume] finishes
    with the answer of the cache; the client is not asked. *)
Lemma Assume_fresh_cache (p p1 : SharedCredentialsProvider)
    (credentials source c1 : Value) (w w1 w2 : World)
    (provider : CacheProvider_interface) (cache : Cache_interface) :
  Assume_defaults lib p credentials w = Done ((p1, c1), w) ->
  Cache p1 = true -> CacheProvider p1 = Some provider ->
  CacheProvider_Get provider (SourceProfile c1) (RoleARN c1)
    (RoleSessionName c1) w = Done (cache, w1) ->
  Cache_IsExpired cache w1 = Done (false, w2) ->
  Assume lib p credentials source w
  = match Cache_Get cache w2 with
    | Done ((roleOutput, err), w3) => Assume_result p1 roleOutput err w3
    | Panic r => Panic r
    end.
Proof.
  intros Hd Hc Hp Hg He. rewrite (Assume_eq _ _ _ _ _ _ Hd).
  rewrite (Assume_roleOutput_fresh _ _ _ _ _ _ _ Hc Hp Hg He). reflexivity.
Qed.

(** With the cache and an expired entry, a successful answer of the
    client is used and the cache is not written: the world afterwards is
    the one after the freshness check, plus the logged call. *)
Lemma Assume_stale_success_not_stored (p p1 : SharedCredentialsProvider)
    (credentials source c1 : Value) (w w1 w2 : World)
    (provider : CacheProvider_interface) (cache : Cache_interface)
    (client : AssumeRoler) (roleOutput : option AssumeRoleOutput) :
  Assume_defaults lib p credentials w = Done ((p1, c1), w) ->
  Cache p1 = true -> CacheProvider p1 = Some provider ->
  CacheProvider_Get provider (SourceProfile c1) (RoleARN c1)
    (RoleSessionName c1) w = Done (cache, w1) ->
  Cache_IsExpired cache w1 = Done (true, w2) ->
  Client (STS p1) = Some client ->
  client (assumeRoleInput p1 c1) = (roleOutput, None) ->
  Assume lib p credentials source w
  = Assume_result p1 roleOutput None
      (log_sts_call (assumeRoleInput p1 c1) w2).
Proof.
  intros Hd Hc Hp Hg He Hcl Hr. rewrite (Assume_eq _ _ _ _ _ _ Hd).
  rewrite (Assume_roleOutput_stale _ _ _ _ _ _ _ _ Hc Hp Hg He Hcl), Hr.
  reflexivity.
Qed.


End Properties.

(** ** The code on concrete installations *)

Import Scenario.

(** C1: with the cache enabled and nothing in it, a successful [Retrieve]
    of the role-chained profile calls the client once, and afterwards the
    cache directory is as empty as before: reading the entry of the key
    fails. *)
Theorem Retrieve_success_not_persisted :
  observe (Retrieve doubles (provider "ops" [withCache; withClient clientGranting])
             world0)
  = Done (mkObserved (freshValue, None) false (mkExpiry elevenOClock)
            [opsRequest] ∅)
  /\ JSONFileCacheProvider_Get doubles (mkJSONFileCacheProvider "~/.aws/cli/cache")
       "default" roleX "ops-session" world0
     = Done (FileCache_as_Cache doubles (mkFileCache opsCacheFile), world0)
  /\ cacheEntryAfter doubles
       (Retrieve doubles (provider "ops" [withCache; withClient clientGranting])
          world0)
       (mkFileCache opsCacheFile)
     = Some (None, Some (ext_error ("open " +:+ opsCacheFile
                                    +:+ ": no such file or directory"))).
Proof.
  split; [vm_compute; reflexivity |].
  split; [reflexivity | vm_compute; reflexivity].
Qed.

(** C2: the cache holds a session for the key that is good for another
    hour, and reading it succeeds; yet the file cache reports it expired,
    so [Retrieve] calls the client once and returns the client's session,
    not the cached one. *)
Theorem Retrieve_ignores_fresh_entry :
  FileCache_Get doubles (mkFileCache opsCacheFile) worldCached
  = Done ((Some cachedSession, None), worldCached)
  /\ (Credentials cachedSession ≫= Expiration) = Some elevenOClock
  /\ now worldCached < elevenOClock
  /\ FileCache_IsExpired (mkFileCache opsCacheFile) worldCached
     = Done (true, worldCached)
  /\ observe (Retrieve doubles
                (provider "ops" [withCache; withClient clientGranting])
                worldCached)
     = Done (mkObserved (freshValue, None) false (mkExpiry elevenOClock)
               [opsRequest] {[ opsCacheFile := "{cached session}" ]})
  /\ AccessKeyID freshValue <> "ASIACACHED".
Proof.
  split; [reflexivity |]. split; [reflexivity |].
  split; [reflexivity |]. split; [reflexivity |].
  split; [vm_compute; reflexivity | discriminate].
Qed.

(** C4: with the cache enabled, the error of the client does not reach the
    caller. When the cache cannot be written, the caller gets the error of
    the write instead; when it can, and the response carries no credentials
    (as the generated client's does), [Retrieve] panics; and when the
    response carries credentials, [Retrieve] reports success. *)
Theorem Retrieve_client_error_replaced :
  clientDenying opsRequest = (Some emptyOutput, Some accessDenied)
  /\ observe (Retrieve doubles
                (provider "ops" [withCache; withClient clientDenying])
                worldReadOnly)
     = Done (mkObserved
               (Value_ProviderNameOnly, Some (ext_error "permission denied"))
               false Expiry_zero [opsRequest] ∅)
  /\ Retrieve doubles (provider "ops" [withCache; withClient clientDenying]) world0
     = Panic nilDereference
  /\ clientGrantingWithError opsRequest = (Some freshSession, Some accessDenied)
  /\ observe (Retrieve doubles
                (provider "ops" [withCache; withClient clientGrantingWithError])
                world0)
     = Done (mkObserved (freshValue, None) false (mkExpiry elevenOClock)
               [opsRequest] {[ opsCacheFile := "{fresh session}" ]}).
Proof.
  split; [reflexivity |].
  split; [vm_compute; reflexivity |].
  split; [vm_compute; reflexivity |].
  split; [reflexivity | vm_compute; reflexivity].
Qed.


(** C5 on the static profile of the installation. *)
Lemma Retrieve_static_profile_witness :
  exists (p' : SharedCredentialsProvider) (v : Value),
    Retrieve doubles (providerAt "default" []) world0 = Done ((p', (v, None)), world0)
    /\ AccessKeyID v = Key_String defaultSection "aws_access_key_id"
    /\ SecretAccessKey v = Key_String defaultSection "aws_secret_access_key"
    /\ SessionToken v = Key_String defaultSection "aws_session_token"
    /\ retrieved p' = true
    /\ forall now : time_Time, IsExpired p' now = false.
Proof.
  apply (Retrieve_static_profile doubles (providerAt "default" [])
           (set_retrieved false (providerAt "default" []))
           (set_retrieved false (providerAt "default" []))
           world0 credentialsPath "default" credentialsFile defaultSection).
  - reflexivity.
  - reflexivity.
  - reflexivity.
  - vm_compute. reflexivity.
  - vm_compute. reflexivity.
  - vm_compute. discriminate.
  - vm_compute. discriminate.
Defined.





(** C10, as stated, fails. A role is assumed at ten, with a session good
    until eleven; the credentials file is then removed and a second
    [Retrieve] returns an error; [IsExpired] is still false. *)
Lemma IsExpired_false_after_failed_Retrieve :
  observe (Retrieve doubles (provider "ops" [withClient clientGranting]) world0)
  = Done (mkObserved (freshValue, None) false (mkExpiry elevenOClock)
            [opsRequest] ∅)
  /\ observe (retrieveAgain doubles
                (Retrieve doubles (provider "ops" [withClient clientGranting])
                   world0)
                withoutCredentialsFile)
     = Done (mkObserved
               (Value_ProviderNameOnly,
                Some (awserr_New "SharedCredsLoad"
                        "failed to load shared credentials file"
                        (Some (ext_error "open: no such file or directory"))))
               false (mkExpiry elevenOClock) [opsRequest] ∅)
  /\ isExpiredAfter
       (retrieveAgain doubles
          (Retrieve doubles (provider "ops" [withClient clientGranting]) world0)
          withoutCredentialsFile)
       tenOClock = Some false.
Proof.
  split; [vm_compute; reflexivity |].
  split; vm_compute; reflexivity.
Qed.

(** The amended C10 on the installation: the static profile is retrieved,
    the credentials file is removed, and the next [Retrieve] fails. *)
Lemma Retrieve_error_clears_retrieved_witness :
  let p0 := providerAt "default" [] in
  let p := set_retrieved true (set_retrieved false p0) in
  let p' := set_retrieved false p in
  Retrieve doubles p0 world0
  = Done ((p, (sectionValue defaultSection, None)), world0)
  /\ retrieved p = true
  /\ retrieved p' = false
  /\ Expiry p' = Expiry p
  /\ forall now : time_Time, 0 <= now -> IsExpired p' now = true.
Proof.
  intros p0 p p'.
  assert (H0 : Retrieve doubles p0 world0
               = Done ((p, (sectionValue defaultSection, None)), world0))
    by reflexivity.
  destruct (Retrieve_error_clears_retrieved doubles p p'
              (withoutCredentialsFile world0) (withoutCredentialsFile world0)
              Value_ProviderNameOnly
              (awserr_New "SharedCredsLoad"
                 "failed to load shared credentials file"
                 (Some (ext_error "open: no such file or directory")))
              ltac:(reflexivity))
    as (_ & Hr & He & _ & _ & _ & Hstatic).
  split; [exact H0 |]. split; [reflexivity |]. split; [exact Hr |].
  split; [exact He |].
  intros now Hnow. exact (Hstatic p0 world0 world0 _ now eq_refl H0 eq_refl Hnow).
Defined.

(** * Further properties of the package *)

(** ** More on the cache key *)

Lemma Contains_app (s t : string) (c : ascii) :
  strings.Contains (s +:+ t) c = strings.Contains s c || strings.Contains t c.
Proof.
  induction s as [|d s IH]; [reflexivity |].
  rewrite app_cons. simpl. rewrite IH. now rewrite orb_assoc.
Qed.

Lemma ReplaceAll_app (s t : string) (old new : ascii) :
  strings.ReplaceAll (s +:+ t) old new
  = strings.ReplaceAll s old new +:+ strings.ReplaceAll t old new.
Proof.
  induction s as [|d s IH]; [reflexivity |].
  rewrite app_cons. simpl. rewrite IH. now rewrite app_cons.
Qed.

(** A string without the [old] byte is left as it is. *)
Lemma ReplaceAll_absent (s : string) (old new : ascii) :
  strings.Contains s old = false -> strings.ReplaceAll s old new = s.
Proof.
  induction s as [|d s IH]; [reflexivity |]. simpl. intros H.
  apply orb_false_iff in H as [Hd Hs]. rewrite Hd. f_equal. now apply IH.
Qed.

(** Replacing introduces no byte other than [new]. *)
Lemma ReplaceAll_keeps_absent (s : string) (old new c : ascii) :
  c <> new -> strings.Contains s c = false ->
  strings.Contains (strings.ReplaceAll s old new) c = false.
Proof.
  intros Hc. induction s as [|d s IH]; [reflexivity |]. simpl. intros H.
  apply orb_false_iff in H as [Hd Hs]. rewrite (IH Hs), orb_false_r.
  destruct (Ascii.eqb d old); [| exact Hd].
  apply Ascii.eqb_neq. congruence.
Qed.

(** Two strings that agree up to and after the first [c] of each. *)
Lemma split_at_first (c : ascii) (s1 s2 t1 t2 : string) :
  strings.Contains s1 c = false -> strings.Contains s2 c = false ->
  s1 +:+ String c t1 = s2 +:+ String c t2 -> s1 = s2 /\ t1 = t2.
Proof.
  revert s2. induction s1 as [|d s1 IH]; intros [|e s2] H1 H2 Heq;
    rewrite ?app_cons, ?app_nil_l in Heq; simpl in H1, H2.
  - injection Heq as ->. split; reflexivity.
  - injection Heq as -> _. apply orb_false_iff in H2 as [H2 _].
    rewrite Ascii.eqb_refl in H2. discriminate.
  - injection Heq as -> _. apply orb_false_iff in H1 as [H1 _].
    rewrite Ascii.eqb_refl in H1. discriminate.
  - injection Heq as -> Heq.
    apply orb_false_iff in H1 as [_ H1]. apply orb_false_iff in H2 as [_ H2].
    destruct (IH s2 H1 H2 Heq) as [-> ->]. split; reflexivity.
Qed.

(** X1. On triples whose profile name and role identifier contain no hyphen,
    and whose role identifier contains no underscore, the cache key is
    injective: equal keys come from equal profile, role and session name. *)
Theorem getCacheKey_injective_without_hyphens
    (profile roleArn roleSessionName profile' roleArn' roleSessionName' : string) :
  strings.Contains profile "-"%char = false ->
  strings.Contains profile' "-"%char = false ->
  strings.Contains roleArn "-"%char = false ->
  strings.Contains roleArn' "-"%char = false ->
  strings.Contains roleArn "_"%char = false ->
  strings.Contains roleArn' "_"%char = false ->
  getCacheKey profile roleArn roleSessionName
  = getCacheKey profile' roleArn' roleSessionName' ->
  profile = profile' /\ roleArn = roleArn' /\ roleSessionName = roleSessionName'.
Proof.
  intros Hp Hp' Ha Ha' Hu Hu'. rewrite !getCacheKey_shape.
  assert (HA : strings.Contains (strings.ReplaceAll roleArn ":"%char "_"%char)
                 "-"%char = false)
    by (apply ReplaceAll_keeps_absent; [discriminate | exact Ha]).
  assert (HA' : strings.Contains (strings.ReplaceAll roleArn' ":"%char "_"%char)
                  "-"%char = false)
    by (apply ReplaceAll_keeps_absent; [discriminate | exact Ha']).
  assert (Hinj : strings.ReplaceAll roleArn ":"%char "_"%char
                 = strings.ReplaceAll roleArn' ":"%char "_"%char ->
                 roleArn = roleArn')
    by (apply ReplaceAll_inj; assumption).
  destruct (String.eqb_spec roleSessionName "") as [->|Hs],
    (String.eqb_spec roleSessionName' "") as [->|Hs']; intros Heq;
    rewrite ?app_assoc_string in Heq;
    change ("--" +:+ ?x) with (String "-" (String "-" x)) in Heq;
    apply split_at_first in Heq as [-> Heq]; try assumption;
    injection Heq as Heq.
  - split; [reflexivity |]. split; [auto | reflexivity].
  - exfalso. rewrite Heq, Contains_app in HA.
    apply orb_false_iff in HA as [_ HA]. discriminate HA.
  - exfalso. rewrite <- Heq, Contains_app in HA'.
    apply orb_false_iff in HA' as [_ HA']. discriminate HA'.
  - apply split_at_first in Heq as [Heq Hrest]; try assumption.
    injection Hrest as ->. split; [reflexivity |]. split; [auto | reflexivity].
Qed.

(** X1 at two triples that agree on the key: they are the same triple. *)
Lemma getCacheKey_injective_without_hyphens_witness :
  getCacheKey "default" "arn:aws:iam::123456789012:role/X" "ops-session"
  = getCacheKey "default" "arn:aws:iam::123456789012:role/X" "ops-session"
  /\ "default" = "default"
  /\ "arn:aws:iam::123456789012:role/X" = "arn:aws:iam::123456789012:role/X"
  /\ "ops-session" = "ops-session".
Proof.
  split; [reflexivity |].
  apply (getCacheKey_injective_without_hyphens "default"
           "arn:aws:iam::123456789012:role/X" "ops-session" "default"
           "arn:aws:iam::123456789012:role/X" "ops-session"); reflexivity.
Defined.

(** X2. The separator is not escaped, so the fields of a key cannot be told
    apart when they contain it: a profile name ending in [--q] with role [a]
    gives the key of the profile without that ending and role [q--a]; and a
    role with session name [s] gives the key of role [a--s] without a
    session name (for [q] and [s] without colons). *)
Theorem getCacheKey_separator_collision (profile q roleArn roleSessionName : string) :
  (strings.Contains q ":"%char = false ->
   getCacheKey (profile +:+ "--" +:+ q) roleArn roleSessionName
   = getCacheKey profile (q +:+ "--" +:+ roleArn) roleSessionName)
  /\ (strings.Contains roleSessionName ":"%char = false ->
      roleSessionName <> "" ->
      getCacheKey profile roleArn roleSessionName
      = getCacheKey profile (roleArn +:+ "--" +:+ roleSessionName) "").
Proof.
  split.
  - intros Hq. rewrite !getCacheKey_shape, !ReplaceAll_app.
    rewrite (ReplaceAll_absent q) by exact Hq.
    change (strings.ReplaceAll "--" ":"%char "_"%char) with "--".
    destruct (String.eqb roleSessionName ""); now rewrite !app_assoc_string.
  - intros Hs Hne. rewrite !getCacheKey_shape, !ReplaceAll_app.
    rewrite (ReplaceAll_absent roleSessionName) by exact Hs.
    change (strings.ReplaceAll "--" ":"%char "_"%char) with "--".
    destruct (String.eqb_spec roleSessionName ""); [contradiction |].
    cbn [String.eqb]. now rewrite !app_assoc_string.
Qed.

(** X2 on a profile name and a session name of the installation. *)
Lemma getCacheKey_separator_collision_witness :
  getCacheKey "team--default" "role/X" "" = getCacheKey "team" "default--role/X" ""
  /\ getCacheKey "default" "role/X" "ops" = getCacheKey "default" "role/X--ops" "".
Proof.
  split.
  - apply (getCacheKey_separator_collision "team" "default" "role/X" "").
    reflexivity.
  - apply (getCacheKey_separator_collision "default" "" "role/X" "ops");
      [reflexivity | discriminate].
Defined.

(** ** Where the credentials file and the profile name come from *)

Section Resolution.

Variable lib : Collaborators.

(** A successful [filename] has stored the name it returns. *)
Lemma filename_stored (p p1 : SharedCredentialsProvider) (w : World)
    (name : string) :
  filename lib p w = Done ((p1, (name, None)), w) -> Filename p1 = name.
Proof.
  unfold filename. run.
  destruct (String.eqb (Filename p) "");
    [| intros [= <- <-]; reflexivity].
  cbn [Filename set_Filename].
  destruct (negb (String.eqb (environ w "AWS_SHARED_CREDENTIALS_FILE") ""));
    [intros [= <- <-]; reflexivity |].
  destruct (String.eqb (environ w "HOME") "").
  - destruct (String.eqb (environ w "USERPROFILE") "");
      [discriminate | intros [= <- <-]; reflexivity].
  - destruct (String.eqb (environ w "HOME") "");
      [discriminate | intros [= <- <-]; reflexivity].
Qed.

(** X3. The credentials file is the [Filename] of the provider when it is
    set, whatever the environment; otherwise the value of
    [AWS_SHARED_CREDENTIALS_FILE] when that is set; otherwise
    [.aws/credentials] under [HOME], or under [USERPROFILE] when [HOME] is
    empty. [filename] returns an error only when all four are empty, and the
    error is then the one of the missing home directory. *)
Theorem filename_resolution (p : SharedCredentialsProvider) (w : World) :
  let shared := environ w "AWS_SHARED_CREDENTIALS_FILE" in
  let home := if String.eqb (environ w "HOME") "" then environ w "USERPROFILE"
              else environ w "HOME" in
  (Filename p <> "" ->
   filename lib p w = Done ((p, (Filename p, None)), w))
  /\ (Filename p = "" -> shared <> "" ->
      filename lib p w = Done ((set_Filename shared p, (shared, None)), w))
  /\ (Filename p = "" -> shared = "" -> home <> "" ->
      filename lib p w
      = Done ((set_Filename (filepath_Join lib [home; ".aws"; "credentials"]) p,
               (filepath_Join lib [home; ".aws"; "credentials"], None)), w))
  /\ (Filename p = "" -> shared = "" -> home = "" ->
      filename lib p w
      = Done ((set_Filename "" p, ("", Some ErrSharedCredentialsHomeNotFound)), w))
  /\ (forall (p1 : SharedCredentialsProvider) (name : string) (e : error),
        filename lib p w = Done ((p1, (name, Some e)), w) ->
        e = ErrSharedCredentialsHomeNotFound
        /\ Filename p = "" /\ shared = ""
        /\ environ w "HOME" = "" /\ environ w "USERPROFILE" = "").
Proof.
  intros shared home. subst shared home. unfold filename. run.
  destruct (String.eqb_spec (Filename p) "") as [Hf|Hf].
  - cbn [Filename set_Filename].
    destruct (String.eqb_spec (environ w "AWS_SHARED_CREDENTIALS_FILE") "")
      as [Hs|Hs]; cbn [negb].
    + rewrite Hs.
      destruct (String.eqb_spec (environ w "HOME") "") as [Hh|Hh].
      * destruct (String.eqb_spec (environ w "USERPROFILE") "") as [Hu|Hu];
          (repeat split; try congruence; try discriminate).
      * destruct (String.eqb_spec (environ w "HOME") ""); [contradiction |].
        repeat split; try congruence; discriminate.
    + repeat split; try congruence; discriminate.
  - repeat split; try congruence; discriminate.
Qed.

(** X4. Once [filename] has resolved the credentials file, the provider
    keeps it: later calls return the same name in any environment. *)
Theorem filename_sticky (p p1 : SharedCredentialsProvider) (w w' : World)
    (name : string) :
  filename lib p w = Done ((p1, (name, None)), w) ->
  name <> "" ->
  filename lib p1 w' = Done ((p1, (name, None)), w').
Proof.
  intros H Hne. apply filename_stored in H. unfold filename. rewrite H.
  destruct (String.eqb_spec name ""); [contradiction | reflexivity].
Qed.

(** A provider with a profile name returns it and stays as it is. *)
Lemma profile_set (q : SharedCredentialsProvider) (w : World) :
  Profile q <> "" -> profile q w = Done ((q, Profile q), w).
Proof.
  intros Hq. unfold profile. run.
  destruct (String.eqb_spec (Profile q) ""); [contradiction |].
  destruct (String.eqb_spec (Profile q) ""); [contradiction | reflexivity].
Qed.

(** The name [profile] resolves is not empty. *)
Lemma profile_name_nonempty (p : SharedCredentialsProvider) (w : World) :
  (if negb (String.eqb (Profile p) "") then Profile p
   else if negb (String.eqb (environ w "AWS_PROFILE") "")
        then environ w "AWS_PROFILE" else "default") <> "".
Proof.
  destruct (String.eqb_spec (Profile p) ""); cbn [negb]; [| assumption].
  destruct (String.eqb_spec (environ w "AWS_PROFILE") ""); cbn [negb];
    [discriminate | assumption].
Qed.

(** [profile] written out. *)
Lemma profile_eq (p : SharedCredentialsProvider) (w : World) :
  profile p w
  = Done ((set_Profile
             (if negb (String.eqb (Profile p) "") then Profile p
              else if negb (String.eqb (environ w "AWS_PROFILE") "")
                   then environ w "AWS_PROFILE" else "default") p,
           if negb (String.eqb (Profile p) "") then Profile p
           else if negb (String.eqb (environ w "AWS_PROFILE") "")
                then environ w "AWS_PROFILE" else "default"), w).
Proof.
  unfold profile. run.
  destruct (String.eqb_spec (Profile p) "") as [Hp|Hp]; cbn [negb].
  - cbn [Profile set_Profile].
    destruct (String.eqb_spec (environ w "AWS_PROFILE") ""); reflexivity.
  - destruct (String.eqb_spec (Profile p) ""); [contradiction |].
    destruct p; reflexivity.
Qed.

(** A provider with a file name returns it and stays as it is. *)
Lemma filename_set (q : SharedCredentialsProvider) (w : World) :
  Filename q <> "" -> filename lib q w = Done ((q, (Filename q, None)), w).
Proof.
  intros Hq. unfold filename.
  destruct (String.eqb_spec (Filename q) ""); [contradiction | reflexivity].
Qed.

(** X5. The profile is the [Profile] of the provider when it is set,
    otherwise the value of [AWS_PROFILE] when that is set, otherwise
    [default]; it is never empty, and the provider keeps it: later calls
    return the same name in any environment. *)
Theorem profile_resolution (p : SharedCredentialsProvider) (w : World) :
  let name :=
    if negb (String.eqb (Profile p) "") then Profile p
    else if negb (String.eqb (environ w "AWS_PROFILE") "")
         then environ w "AWS_PROFILE" else "default" in
  profile p w = Done ((set_Profile name p, name), w)
  /\ name <> ""
  /\ forall w' : World,
       profile (set_Profile name p) w' = Done ((set_Profile name p, name), w').
Proof.
  intros name. split; [apply profile_eq |].
  split; [apply profile_name_nonempty |].
  intros w'. apply (profile_set (set_Profile name p) w').
  apply profile_name_nonempty.
Qed.

End Resolution.

(** X4 on the installation: the file resolved through [HOME] is still the
    one used when the environment is empty. *)
Lemma filename_sticky_witness :
  filename Scenario.doubles
    (set_Filename Scenario.credentialsPath (Scenario.provider "default" []))
    (mkWorld (fun _ => "") Scenario.files None ∅ (fun _ => None) 0 [])
  = Done ((set_Filename Scenario.credentialsPath (Scenario.provider "default" []),
           (Scenario.credentialsPath, None)),
          mkWorld (fun _ => "") Scenario.files None ∅ (fun _ => None) 0 []).
Proof.
  apply (filename_sticky Scenario.doubles (Scenario.provider "default" [])
           _ Scenario.world0).
  - reflexivity.
  - discriminate.
Defined.

(** ** Retrieve and Assume without the cache *)

Lemma DefaultDuration_seconds : Z.quot DefaultDuration time_Second = 900.
Proof. reflexivity. Qed.

Section Network.

Variable lib : Collaborators.

(** The defaults of [Assume], written out. *)
Lemma Assume_defaults_eq (p : SharedCredentialsProvider) (credentials : Value)
    (w : World) :
  Assume_defaults lib p credentials w
  = Done ((set_STS
             (mkSTSOptions
                (if Duration (STS p) =? 0 then DefaultDuration
                 else Duration (STS p))
                (ExpiryWindow (STS p))
                (Some (default (sts_New lib) (Client (STS p))))) p,
           if String.eqb (RoleSessionName credentials) ""
           then set_RoleSessionName (pretty (UnixNano (now w))) credentials
           else credentials), w).
Proof.
  unfold Assume_defaults. run.
  destruct p as [e f pr r cp c [d ew [cl|]]];
    destruct (String.eqb (RoleSessionName credentials) "");
    cbn [STS Duration ExpiryWindow Client set_STS default];
    destruct (d =? 0); reflexivity.
Qed.

(** The request [Assume] sends, written out over the configuration. *)
Lemma assumeRoleInput_defaults (p : SharedCredentialsProvider)
    (credentials : Value) (w : World) :
  assumeRoleInput
    (set_STS
       (mkSTSOptions
          (if Duration (STS p) =? 0 then DefaultDuration else Duration (STS p))
          (ExpiryWindow (STS p))
          (Some (default (sts_New lib) (Client (STS p))))) p)
    (if String.eqb (RoleSessionName credentials) ""
     then set_RoleSessionName (pretty (UnixNano (now w))) credentials
     else credentials)
  = mkAssumeRoleInput
      (Some (if Duration (STS p) =? 0 then 900
             else Z.quot (Duration (STS p)) time_Second))
      (Some (RoleARN credentials))
      (Some (if String.eqb (RoleSessionName credentials) ""
             then pretty (UnixNano (now w))
             else RoleSessionName credentials))
      (ExternalID credentials).
Proof.
  unfold assumeRoleInput. cbn [STS Duration set_STS].
  destruct (Duration (STS p) =? 0), (String.eqb (RoleSessionName credentials) "");
    reflexivity.
Qed.

(** Without the cache, [Assume] is the last part of [Assume] on the answer
    of the client, in the world with the request logged. *)
Lemma Assume_no_cache_eq (p : SharedCredentialsProvider)
    (credentials source : Value) (w : World) :
  Cache p = false ->
  Assume lib p credentials source w
  = Assume_result
      (set_STS
         (mkSTSOptions
            (if Duration (STS p) =? 0 then DefaultDuration else Duration (STS p))
            (ExpiryWindow (STS p))
            (Some (default (sts_New lib) (Client (STS p))))) p)
      (fst (default (sts_New lib) (Client (STS p))
              (mkAssumeRoleInput
                 (Some (if Duration (STS p) =? 0 then 900
                        else Z.quot (Duration (STS p)) time_Second))
                 (Some (RoleARN credentials))
                 (Some (if String.eqb (RoleSessionName credentials) ""
                        then pretty (UnixNano (now w))
                        else RoleSessionName credentials))
                 (ExternalID credentials))))
      (snd (default (sts_New lib) (Client (STS p))
              (mkAssumeRoleInput
                 (Some (if Duration (STS p) =? 0 then 900
                        else Z.quot (Duration (STS p)) time_Second))
                 (Some (RoleARN credentials))
                 (Some (if String.eqb (RoleSessionName credentials) ""
                        then pretty (UnixNano (now w))
                        else RoleSessionName credentials))
                 (ExternalID credentials))))
      (log_sts_call
         (mkAssumeRoleInput
            (Some (if Duration (STS p) =? 0 then 900
                   else Z.quot (Duration (STS p)) time_Second))
            (Some (RoleARN credentials))
            (Some (if String.eqb (RoleSessionName credentials) ""
                   then pretty (UnixNano (now w))
                   else RoleSessionName credentials))
            (ExternalID credentials)) w).
Proof.
  intros Hc.
  rewrite (Assume_eq _ _ _ _ _ _ _ (Assume_defaults_eq p credentials w)).
  rewrite (Assume_roleOutput_no_cache _ _ _
             (default (sts_New lib) (Client (STS p))))
    by (cbn [Cache STS Client set_STS]; first [exact Hc | reflexivity]).
  rewrite assumeRoleInput_defaults.
  destruct (default (sts_New lib) (Client (STS p)) _) as [ro cerr]. reflexivity.
Qed.

(** X6. With the cache disabled, an [Assume] that returns has sent exactly
    one request to the client (the configured one, or the default client),
    and has written no file. The request carries the role, the session name
    (the decimal Unix time in nanoseconds when the profile gives none), the
    external id, and the duration in whole seconds (900 when none is
    configured). The error returned is the client's; without an error the
    credentials returned are those of the response, and its expiration is
    recorded with the configured window. *)
Theorem Assume_without_cache (p p' : SharedCredentialsProvider)
    (credentials source v : Value) (err : option error) (w w' : World) :
  Cache p = false ->
  Assume lib p credentials source w = Done ((p', (v, err)), w') ->
  let client := default (sts_New lib) (Client (STS p)) in
  let request :=
    mkAssumeRoleInput
      (Some (if Duration (STS p) =? 0 then 900
             else Z.quot (Duration (STS p)) time_Second))
      (Some (RoleARN credentials))
      (Some (if String.eqb (RoleSessionName credentials) ""
             then pretty (UnixNano (now w))
             else RoleSessionName credentials))
      (ExternalID credentials) in
  sts_calls w' = (sts_calls w ++ [request])%list
  /\ disk w' = disk w
  /\ snd (client request) = err
  /\ (err = None ->
      exists exp : time_Time,
        fst (client request)
        = Some (mkAssumeRoleOutput
                  (Some (mkStsCredentials (Some (AccessKeyID v)) (Some exp)
                           (Some (SecretAccessKey v)) (Some (SessionToken v)))))
        /\ Expiry p' = Expiry_SetExpiration (Expiry p) exp (ExpiryWindow (STS p)))
  /\ (err <> None -> v = Value_ProviderNameOnly /\ Expiry p' = Expiry p).
Proof.
  intros Hc H client request.
  rewrite (Assume_no_cache_eq _ _ _ _ Hc) in H. fold client request in H.
  destruct (client request) as [ro cerr] eqn:Hcl. cbn [fst snd] in *.
  destruct err as [e|].
  - apply Assume_result_error in H as (-> & -> & -> & ->).
    repeat split; try reflexivity; discriminate.
  - apply Assume_result_success in H
      as (-> & -> & exp & ak & sk & tok & -> & -> & ->).
    repeat split; try reflexivity; try congruence.
    intros _. exists exp. split; reflexivity.
Qed.


End Network.

(** X6 on the installation: the role-chained profile, the cache disabled,
    and a client that grants the session. *)
Lemma Assume_without_cache_witness :
  sts_calls (log_sts_call opsRequest world0)
  = (sts_calls world0 ++ [opsRequest])%list
  /\ disk (log_sts_call opsRequest world0) = disk world0
  /\ snd (clientGranting opsRequest) = None.
Proof.
  destruct (Assume_without_cache doubles
              (set_retrieved false (providerAt "ops" [withClient clientGranting]))
              (set_Expiry (mkExpiry elevenOClock)
                 (set_STS (mkSTSOptions DefaultDuration 0 (Some clientGranting))
                    (set_retrieved false
                       (providerAt "ops" [withClient clientGranting]))))
              (sectionValue opsSection) (sectionValue defaultSection)
              freshValue None world0 (log_sts_call opsRequest world0)
              eq_refl eq_refl)
    as (Hcalls & Hdisk & Herr & _).
  split; [exact Hcalls |]. split; [exact Hdisk | exact Herr].
Defined.


(** ** What Retrieve leaves alone *)

Section Frame.

Variable lib : Collaborators.

Lemma filename_keeps_options (p p1 : SharedCredentialsProvider) (w w1 : World)
    (r : string * option error) :
  filename lib p w = Done ((p1, r), w1) -> STS p1 = STS p.
Proof.
  unfold filename. run.
  destruct (String.eqb (Filename p) ""); [| intros [= <- _ _]; reflexivity].
  cbn [Filename set_Filename].
  destruct (negb (String.eqb (environ w "AWS_SHARED_CREDENTIALS_FILE") ""));
    [intros [= <- _ _]; reflexivity |].
  destruct (String.eqb (environ w "HOME") "").
  - destruct (String.eqb (environ w "USERPROFILE") "");
      intros [= <- _ _]; reflexivity.
  - destruct (String.eqb (environ w "HOME") "");
      intros [= <- _ _]; reflexivity.
Qed.

Lemma profile_keeps_options (p p1 : SharedCredentialsProvider) (w w1 : World)
    (name : string) :
  profile p w = Done ((p1, name), w1) -> STS p1 = STS p.
Proof.
  rewrite profile_eq. intros [= <- _ _]. reflexivity.
Qed.

(** The provider an [Assume] leaves is the one with the defaults filled in,
    with the recorded expiration changed at most. *)
Lemma Assume_done_state (p p' : SharedCredentialsProvider)
    (credentials source v : Value) (err : option error) (w w' : World) :
  Assume lib p credentials source w = Done ((p', (v, err)), w') ->
  ProviderName v = SharedCredsProviderName
  /\ exists e : credentials_Expiry,
      p' = set_Expiry e
             (set_STS
                (mkSTSOptions
                   (if Duration (STS p) =? 0 then DefaultDuration
                    else Duration (STS p))
                   (ExpiryWindow (STS p))
                   (Some (default (sts_New lib) (Client (STS p))))) p).
Proof.
  rewrite (Assume_eq _ _ _ _ _ _ _ (Assume_defaults_eq lib p credentials w)).
  destruct (Assume_roleOutput _ _ w) as [[[ro cerr] w2]|]; [| discriminate].
  destruct err as [e|]; intros H.
  - apply Assume_result_error in H as (-> & _ & -> & _).
    split; [reflexivity |]. exists (Expiry p). destruct p; reflexivity.
  - apply Assume_result_success in H as (_ & _ & exp & ak & sk & tok & _ & -> & ->).
    split; [reflexivity |]. eexists. reflexivity.
Qed.

(** X8. Whatever [Retrieve] returns, the value carries the name of this
    provider. *)
Theorem Retrieve_provider_name (p p' : SharedCredentialsProvider)
    (v : Value) (err : option error) (w w' : World) :
  Retrieve lib p w = Done ((p', (v, err)), w') ->
  ProviderName v = SharedCredsProviderName.
Proof.
  destruct (filename_total lib (set_retrieved false p) w)
    as (p1 & [fname ferr] & Hf & _).
  destruct (profile_total p1 w) as (p2 & prof & Hp & _).
  rewrite (Retrieve_eq _ _ _ _ _ _ _ _ Hf Hp).
  destruct ferr as [e0|]; [intros [= _ <- _ _]; reflexivity |].
  destruct (loadedProfile w fname prof) as [creds [e0|]] eqn:Hl;
    [intros [= _ <- _ _]; reflexivity |].
  destruct (negb (String.eqb (RoleARN creds) "")).
  - cbv zeta. destruct (loadedProfile w fname (SourceProfile _)) as [src [e0|]];
      [intros [= _ <- _ _]; reflexivity |].
    intros H. apply Assume_done_state in H as [H _]. exact H.
  - intros [= _ <- _ _]. unfold loadedProfile in Hl.
    destruct (ini_files w fname) as [e0|config]; [discriminate |].
    destruct (config !! prof) as [sec|]; [| discriminate].
    assert (Hv : validate (sectionValue sec) fname prof = (sectionValue sec, None))
      by (apply validate_no_error; rewrite Hl; reflexivity).
    rewrite Hv in Hl. injection Hl as <-. reflexivity.
Qed.

(** X9. A [Retrieve] that returns leaves the configuration of the provider
    alone: the cache switch, the cache provider and the expiry window are
    unchanged; the duration and the client are unchanged too, or were unset
    and now hold the default duration and the default client. *)
Theorem Retrieve_keeps_configuration (p p' : SharedCredentialsProvider)
    (v : Value) (err : option error) (w w' : World) :
  Retrieve lib p w = Done ((p', (v, err)), w') ->
  Cache p' = Cache p
  /\ CacheProvider p' = CacheProvider p
  /\ ExpiryWindow (STS p') = ExpiryWindow (STS p)
  /\ (Duration (STS p') = Duration (STS p)
      \/ (Duration (STS p) = 0 /\ Duration (STS p') = DefaultDuration))
  /\ (Client (STS p') = Client (STS p)
      \/ (Client (STS p) = None /\ Client (STS p') = Some (sts_New lib))).
Proof.
  destruct (filename_total lib (set_retrieved false p) w)
    as (p1 & [fname ferr] & Hf & (_ & _ & _ & Hc1 & Hcp1) & _).
  destruct (profile_total p1 w) as (p2 & prof & Hp & (_ & _ & _ & Hc2 & Hcp2)).
  pose proof (filename_keeps_options _ _ _ _ _ Hf) as Hs1.
  pose proof (profile_keeps_options _ _ _ _ _ Hp) as Hs2.
  cbn [Cache CacheProvider STS set_retrieved] in Hc1, Hcp1, Hs1.
  rewrite (Retrieve_eq _ _ _ _ _ _ _ _ Hf Hp).
  assert (Hsame : forall q : SharedCredentialsProvider,
             Cache q = Cache p -> CacheProvider q = CacheProvider p ->
             STS q = STS p ->
             Cache q = Cache p /\ CacheProvider q = CacheProvider p
             /\ ExpiryWindow (STS q) = ExpiryWindow (STS p)
             /\ (Duration (STS q) = Duration (STS p)
                 \/ (Duration (STS p) = 0 /\ Duration (STS q) = DefaultDuration))
             /\ (Client (STS q) = Client (STS p)
                 \/ (Client (STS p) = None
                     /\ Client (STS q) = Some (sts_New lib))))
    by (intros q Hq1 Hq2 Hq3; rewrite Hq3; repeat split; try assumption;
        left; reflexivity).
  assert (H1 := Hsame p1 Hc1 Hcp1 Hs1).
  assert (H2 := Hsame p2 ltac:(congruence) ltac:(congruence) ltac:(congruence)).
  destruct ferr as [e0|]; [intros [= <- _ _ _]; exact H1 |].
  destruct (loadedProfile w fname prof) as [creds [e0|]];
    [intros [= <- _ _ _]; exact H2 |].
  destruct (negb (String.eqb (RoleARN creds) ""));
    [| intros [= <- _ _ _]; exact H2].
  cbv zeta. destruct (loadedProfile w fname _) as [src [e0|]];
    [intros [= <- _ _ _]; exact H2 |].
  intros H. apply Assume_done_state in H as [_ [e ->]].
  cbn [Cache CacheProvider STS set_Expiry set_STS Duration ExpiryWindow Client].
  rewrite Hs2, Hs1.
  split; [congruence |]. split; [congruence |]. split; [reflexivity |]. split.
  - destruct (Z.eqb_spec (Duration (STS p)) 0); [right | left]; tauto.
  - destruct (Client (STS p)); [left | right]; cbn [default]; tauto.
Qed.

End Frame.

(** X8 on the static profile of the installation. *)
Lemma Retrieve_provider_name_witness :
  ProviderName (sectionValue defaultSection) = SharedCredsProviderName.
Proof.
  apply (Retrieve_provider_name doubles (providerAt "default" [])
           (set_retrieved true (set_retrieved false (providerAt "default" [])))
           (sectionValue defaultSection) None world0 world0).
  reflexivity.
Defined.

(** X9 on the static profile of the installation. *)
Lemma Retrieve_keeps_configuration_witness :
  Cache (set_retrieved true (set_retrieved false (providerAt "default" [])))
  = Cache (providerAt "default" [])
  /\ ExpiryWindow
       (STS (set_retrieved true (set_retrieved false (providerAt "default" []))))
     = ExpiryWindow (STS (providerAt "default" [])).
Proof.
  destruct (Retrieve_keeps_configuration doubles (providerAt "default" [])
              (set_retrieved true (set_retrieved false (providerAt "default" [])))
              (sectionValue defaultSection) None world0 world0 eq_refl)
    as (Hc & _ & Hw & _).
  split; [exact Hc | exact Hw].
Defined.

(** ** Failures before the network, and the cache as a store *)

Section Stores.

Variable lib : Collaborators.

(** X10. When the credentials file cannot be loaded, when it has no section
    for the profile, or when the source profile of a role-chained profile
    does not load, [Retrieve] returns that error and leaves the world as it
    was: no request is sent and no file is written. *)
Theorem Retrieve_fails_before_network (p p1 p2 : SharedCredentialsProvider)
    (w : World) (fname prof : string) :
  filename lib (set_retrieved false p) w = Done ((p1, (fname, None)), w) ->
  profile p1 w = Done ((p2, prof), w) ->
  (forall err : error,
     ini_files w fname = inl err ->
     Retrieve lib p w
     = Done ((p2, (Value_ProviderNameOnly,
                   Some (awserr_New "SharedCredsLoad"
                           "failed to load shared credentials file"
                           (Some err)))), w))
  /\ (forall config : IniFile,
        ini_files w fname = inr config ->
        config !! prof = None ->
        exists orig : error,
          Retrieve lib p w
          = Done ((p2, (Value_ProviderNameOnly,
                        Some (awserr_New "SharedCredsLoad"
                                "failed to get profile" (Some orig)))), w))
  /\ (forall (config : IniFile) (iniProfile : gmap string string)
             (v : Value) (e : error),
        ini_files w fname = inr config ->
        config !! prof = Some iniProfile ->
        Key_String iniProfile "role_arn" <> "" ->
        Key_String iniProfile "source_profile" <> "" ->
        loadedProfile w fname (Key_String iniProfile "source_profile")
        = (v, Some e) ->
        Retrieve lib p w = Done ((p2, (Value_ProviderNameOnly, Some e)), w)).
Proof.
  intros Hf Hp. rewrite (Retrieve_eq _ _ _ _ _ _ _ _ Hf Hp).
  split; [| split].
  - intros err Hi. unfold loadedProfile. rewrite Hi. reflexivity.
  - intros config Hi Hc. unfold loadedProfile. rewrite Hi, Hc.
    eexists. reflexivity.
  - intros config sec v e Hi Hc Hrole Hsrc Hl.
    assert (Hv : loadedProfile w fname prof = (sectionValue sec, None)).
    { unfold loadedProfile. rewrite Hi, Hc. apply validate_success.
      right. split; assumption. }
    rewrite Hv. cbn [RoleARN SourceProfile sectionValue].
    destruct (String.eqb_spec (Key_String sec "role_arn") ""); [contradiction |].
    destruct (String.eqb_spec (Key_String sec "source_profile") "");
      [contradiction |].
    cbn [negb SourceProfile sectionValue]. rewrite Hl. reflexivity.
Qed.

(** X11. What [Set] of the file cache stores, [Get] reads back from the
    same file, when the codec round-trips the response and the file can be
    written; [Set] replaces whatever the file held, touches no other file,
    and sends nothing to the client. *)
Theorem FileCache_store_load (c : FileCache) (response : AssumeRoleOutput)
    (data : string) (w : World) :
  json_Marshal lib response = (data, None) ->
  json_Unmarshal lib data = (response, None) ->
  write_fault w (FileName c) = None ->
  exists w' : World,
    FileCache_Set lib c (Some response) w = Done (None, w')
    /\ FileCache_Get lib c w' = Done ((Some response, None), w')
    /\ (forall other : string,
          other <> FileName c -> disk w' !! other = disk w !! other)
    /\ sts_calls w' = sts_calls w.
Proof.
  intros Hm Hu Hw. unfold FileCache_Set, FileCache_Get, ioutil_WriteFile,
    ioutil_ReadFile. run. rewrite Hm, Hw. eexists. split; [reflexivity |].
  cbn [disk set_disk sts_calls]. rewrite lookup_insert_eq, Hu.
  split; [reflexivity |]. split; [| reflexivity].
  intros other Hne. apply lookup_insert_ne. congruence.
Qed.


(** X13. [Get] of the JSON file cache provider never touches the world. It
    panics when the current user cannot be found, even for a directory that
    needs no home, and when the directory name is shorter than two bytes. A
    directory [~/rest] becomes [home/rest]; any other directory is used as
    it is; the file is the cache key with the extension [json] in that
    directory. *)
Theorem JSONFileCacheProvider_Get_outcomes (c : JSONFileCacheProvider)
    (profile roleArn roleSessionName : string) (w : World) :
  (current_user w = None ->
   JSONFileCacheProvider_Get lib c profile roleArn roleSessionName w
   = Panic nilDereference)
  /\ (forall home : string,
        current_user w = Some home ->
        (String.length (CacheDirName c) < 2)%nat ->
        JSONFileCacheProvider_Get lib c profile roleArn roleSessionName w
        = Panic "slice bounds out of range")
  /\ (forall home rest : string,
        current_user w = Some home ->
        CacheDirName c = "~/" +:+ rest ->
        JSONFileCacheProvider_Get lib c profile roleArn roleSessionName w
        = Done (FileCache_as_Cache lib
                  (mkFileCache
                     (filepath_Join lib
                        [home +:+ "/" +:+ rest;
                         getCacheKey profile roleArn roleSessionName
                           +:+ ".json"])), w))
  /\ (forall home : string,
        current_user w = Some home ->
        (2 <= String.length (CacheDirName c))%nat ->
        substring 0 2 (CacheDirName c) <> "~/" ->
        JSONFileCacheProvider_Get lib c profile roleArn roleSessionName w
        = Done (FileCache_as_Cache lib
                  (mkFileCache
                     (filepath_Join lib
                        [CacheDirName c;
                         getCacheKey profile roleArn roleSessionName
                           +:+ ".json"])), w)).
Proof.
  unfold JSONFileCacheProvider_Get. run.
  split; [intros ->; reflexivity |]. split; [| split].
  - intros home -> Hlen.
    destruct (Nat.ltb_spec (String.length (CacheDirName c)) 2); [reflexivity | lia].
  - intros home rest -> ->. destruct rest; reflexivity.
  - intros home -> Hlen Hne.
    destruct (Nat.ltb_spec (String.length (CacheDirName c)) 2); [lia |].
    destruct (String.eqb_spec (substring 0 2 (CacheDirName c)) "~/");
      [contradiction | reflexivity].
Qed.

End Stores.

(** X10 on the installation, after the credentials file was removed. *)
Lemma Retrieve_fails_before_network_witness :
  Retrieve doubles (providerAt "default" []) (withoutCredentialsFile world0)
  = Done ((set_retrieved false (providerAt "default" []),
           (Value_ProviderNameOnly,
            Some (awserr_New "SharedCredsLoad"
                    "failed to load shared credentials file"
                    (Some (ext_error "open: no such file or directory"))))),
          withoutCredentialsFile world0).
Proof.
  apply (proj1 (Retrieve_fails_before_network doubles (providerAt "default" [])
                  (set_retrieved false (providerAt "default" []))
                  (set_retrieved false (providerAt "default" []))
                  (withoutCredentialsFile world0) credentialsPath "default"
                  eq_refl eq_refl)).
  reflexivity.
Defined.

(** X11 on the installation: the session of the client, stored in the file
    of profile [ops]. *)
Lemma FileCache_store_load_witness :
  exists w' : World,
    FileCache_Set doubles (mkFileCache opsCacheFile) (Some freshSession) world0
    = Done (None, w')
    /\ FileCache_Get doubles (mkFileCache opsCacheFile) w'
       = Done ((Some freshSession, None), w')
    /\ (forall other : string,
          other <> FileName (mkFileCache opsCacheFile) ->
          disk w' !! other = disk world0 !! other)
    /\ sts_calls w' = sts_calls world0.
Proof.
  apply (FileCache_store_load doubles (mkFileCache opsCacheFile) freshSession
           "{fresh session}" world0); reflexivity.
Defined.


(** X13 on the installation: the default cache directory, under the home
    of the current user. *)
Lemma JSONFileCacheProvider_Get_outcomes_witness :
  JSONFileCacheProvider_Get doubles (mkJSONFileCacheProvider "~/.aws/cli/cache")
    "default" roleX "ops-session" world0
  = Done (FileCache_as_Cache doubles
            (mkFileCache
               (filepath_Join doubles
                  ["/home/u" +:+ "/" +:+ ".aws/cli/cache";
                   getCacheKey "default" roleX "ops-session" +:+ ".json"])),
          world0).
Proof.
  apply (proj1 (proj2 (proj2
           (JSONFileCacheProvider_Get_outcomes doubles
              (mkJSONFileCacheProvider "~/.aws/cli/cache")
              "default" roleX "ops-session" world0)))
           "/home/u" ".aws/cli/cache"); reflexivity.
Defined.

(** ** The request of a role-chained Retrieve *)

Section Request.

Variable lib : Collaborators.

(** X14. With the cache disabled, a [Retrieve] of a role-chained profile
    whose source profile loads, if it returns, has sent exactly one request
    to the client and written no file. The request names the [role_arn] of
    the profile and its [role_session_name] (the clock reading when the
    profile gives none), asks for the configured duration in whole seconds
    (900 when none is configured), and never carries an external id. *)
Theorem Retrieve_role_chained_request (p p1 p2 p' : SharedCredentialsProvider)
    (w w' : World) (fname prof : string) (config : IniFile)
    (iniProfile : gmap string string) (src v : Value) (err : option error) :
  Cache p = false ->
  filename lib (set_retrieved false p) w = Done ((p1, (fname, None)), w) ->
  profile p1 w = Done ((p2, prof), w) ->
  ini_files w fname = inr config ->
  config !! prof = Some iniProfile ->
  Key_String iniProfile "role_arn" <> "" ->
  Key_String iniProfile "source_profile" <> "" ->
  loadedProfile w fname (Key_String iniProfile "source_profile") = (src, None) ->
  Retrieve lib p w = Done ((p', (v, err)), w') ->
  sts_calls w'
  = (sts_calls w
     ++ [mkAssumeRoleInput
           (Some (if Duration (STS p) =? 0 then 900
                  else Z.quot (Duration (STS p)) time_Second))
           (Some (Key_String iniProfile "role_arn"))
           (Some (if String.eqb (Key_String iniProfile "role_session_name") ""
                  then pretty (UnixNano (now w))
                  else Key_String iniProfile "role_session_name"))
           None])%list
  /\ disk w' = disk w
  /\ retrieved p' = false.
Proof.
  intros Hcache Hf Hp Hi Hc Hrole Hsrc Hl.
  destruct (filename_total lib (set_retrieved false p) w)
    as (q1 & r & Hf' & (Hr1 & _ & _ & Hc1 & _) & _).
  rewrite Hf in Hf'. injection Hf' as <- _.
  destruct (profile_total p1 w) as (q2 & n & Hp' & (Hr2 & _ & _ & Hc2 & _)).
  rewrite Hp in Hp'. injection Hp' as <- _.
  pose proof (filename_keeps_options _ _ _ _ _ _ Hf) as Hs1.
  pose proof (profile_keeps_options _ _ _ _ _ Hp) as Hs2.
  cbn [retrieved Cache STS set_retrieved] in Hr1, Hc1, Hs1.
  rewrite (Retrieve_eq _ _ _ _ _ _ _ _ Hf Hp).
  assert (Hv : loadedProfile w fname prof = (sectionValue iniProfile, None)).
  { unfold loadedProfile. rewrite Hi, Hc. apply validate_success.
    right. split; assumption. }
  rewrite Hv. cbn [RoleARN SourceProfile sectionValue].
  destruct (String.eqb_spec (Key_String iniProfile "role_arn") "");
    [contradiction |].
  destruct (String.eqb_spec (Key_String iniProfile "source_profile") "");
    [contradiction |].
  cbn [negb SourceProfile sectionValue]. rewrite Hl. intros H.
  assert (Hc' : Cache p2 = false) by congruence.
  destruct (Assume_done_state _ _ _ _ _ _ _ _ _ H) as [_ [e ->]].
  rewrite (Assume_no_cache_eq _ _ _ _ _ Hc') in H.
  cbn [RoleARN RoleSessionName ExternalID sectionValue] in H.
  rewrite Hs2, Hs1 in H. cbn [retrieved set_Expiry set_STS].
  assert (Hw : w' = log_sts_call
                      (mkAssumeRoleInput
                         (Some (if Duration (STS p) =? 0 then 900
                                else Z.quot (Duration (STS p)) time_Second))
                         (Some (Key_String iniProfile "role_arn"))
                         (Some (if String.eqb
                                     (Key_String iniProfile "role_session_name") ""
                                then pretty (UnixNano (now w))
                                else Key_String iniProfile "role_session_name"))
                         None) w).
  { destruct err as [e0|].
    - apply Assume_result_error in H as (_ & _ & _ & ->). reflexivity.
    - apply Assume_result_success in H as (_ & -> & _). reflexivity. }
  rewrite Hw. cbn [sts_calls disk log_sts_call].
  split; [reflexivity |]. split; [reflexivity | congruence].
Qed.

End Request.

(** X14 on the installation: profile [ops], the cache disabled. *)
Lemma Retrieve_role_chained_request_witness :
  sts_calls (log_sts_call opsRequest world0)
  = (sts_calls world0
     ++ [mkAssumeRoleInput (Some 900) (Some (Key_String opsSection "role_arn"))
           (Some (if String.eqb (Key_String opsSection "role_session_name") ""
                  then pretty (UnixNano (now world0))
                  else Key_String opsSection "role_session_name"))
           None])%list
  /\ disk (log_sts_call opsRequest world0) = disk world0.
Proof.
  destruct (Retrieve_role_chained_request doubles
              (providerAt "ops" [withClient clientGranting])
              (set_retrieved false (providerAt "ops" [withClient clientGranting]))
              (set_retrieved false (providerAt "ops" [withClient clientGranting]))
              (set_Expiry (mkExpiry elevenOClock)
                 (set_STS (mkSTSOptions DefaultDuration 0 (Some clientGranting))
                    (set_retrieved false
                       (providerAt "ops" [withClient clientGranting]))))
              world0 (log_sts_call opsRequest world0)
              credentialsPath "ops" credentialsFile opsSection
              (sectionValue defaultSection) freshValue None
              eq_refl eq_refl eq_refl eq_refl
              ltac:(vm_compute; reflexivity)
              ltac:(vm_compute; discriminate)
              ltac:(vm_compute; discriminate)
              ltac:(vm_compute; reflexivity)
              ltac:(reflexivity))
    as (Hcalls & Hdisk & _).
  split; [exact Hcalls | exact Hdisk].
Defined.

(** ** Retrieving a static profile again *)

Section Again.

Variable lib : Collaborators.

(** [loadProfile] reads nothing of the world but the credentials file. *)
Lemma loadedProfile_ext (w w2 : World) (fname prof : string) :
  ini_files w2 = ini_files w ->
  loadedProfile w2 fname prof = loadedProfile w fname prof.
Proof. intros H. unfold loadedProfile. rewrite H. reflexivity. Qed.

(** X15. After a [Retrieve] has returned static credentials, a further
    [Retrieve] on the provider it left returns the same credentials and
    leaves the provider and the world as they are, as long as the
    credentials file reads the same: the file name and the profile name were
    fixed by the first call, so the environment no longer matters. *)
Theorem Retrieve_static_again (p p' : SharedCredentialsProvider) (v : Value)
    (w w' w2 : World) :
  Retrieve lib p w = Done ((p', (v, None)), w') ->
  retrieved p' = true ->
  Filename p' <> "" ->
  ini_files w2 = ini_files w ->
  Retrieve lib p' w2 = Done ((p', (v, None)), w2).
Proof.
  intros H Hret Hname Hini.
  destruct (filename_total lib (set_retrieved false p) w)
    as (p1 & [fname ferr] & Hf & (Hr1 & _) & _).
  pose proof (profile_eq p1 w) as Hp.
  pose proof (profile_name_nonempty p1 w) as Hprof.
  set (prof := if negb (String.eqb (Profile p1) "") then Profile p1
               else if negb (String.eqb (environ w "AWS_PROFILE") "")
                    then environ w "AWS_PROFILE" else "default") in *.
  rewrite (Retrieve_eq _ _ _ _ _ _ _ _ Hf Hp) in H.
  destruct ferr as [e0|]; [discriminate |].
  apply filename_stored in Hf as Hstored.
  destruct (loadedProfile w fname prof) as [creds [e0|]] eqn:Hl; [discriminate |].
  destruct (negb (String.eqb (RoleARN creds) "")) eqn:Hrole.
  - exfalso. cbv zeta in H.
    destruct (loadedProfile w fname (SourceProfile _)) as [src [e0|]];
      [discriminate |].
    apply Assume_success_state in H as [Hr _].
    cbn [retrieved set_retrieved set_Profile] in Hr, Hr1. congruence.
  - injection H as <- <- _.
    cbn [Filename set_retrieved set_Profile] in Hname.
    assert (Hf2 : filename lib
                    (set_retrieved false (set_retrieved true (set_Profile prof p1)))
                    w2
                  = Done ((set_retrieved false
                             (set_retrieved true (set_Profile prof p1)),
                           (fname, None)), w2)).
    { pose proof (filename_set lib
                    (set_retrieved false (set_retrieved true (set_Profile prof p1)))
                    w2) as Hset.
      cbn [Filename set_retrieved set_Profile] in Hset.
      rewrite Hstored in Hset, Hname. exact (Hset Hname). }
    assert (Hp2 : profile
                    (set_retrieved false (set_retrieved true (set_Profile prof p1)))
                    w2
                  = Done ((set_retrieved false
                             (set_retrieved true (set_Profile prof p1)), prof), w2))
      by (apply (profile_set
                   (set_retrieved false (set_retrieved true (set_Profile prof p1))));
          exact Hprof).
    rewrite (Retrieve_eq _ _ _ _ _ _ _ _ Hf2 Hp2).
    rewrite (loadedProfile_ext w w2 fname prof Hini), Hl, Hrole. reflexivity.
Qed.

End Again.

(** X15 on the installation: the static profile is retrieved, and then
    retrieved again where the environment is empty. *)
Lemma Retrieve_static_again_witness :
  Retrieve doubles
    (set_retrieved true (set_retrieved false (providerAt "default" [])))
    (mkWorld (fun _ => "") files None ∅ (fun _ => None) elevenOClock [])
  = Done ((set_retrieved true (set_retrieved false (providerAt "default" [])),
           (sectionValue defaultSection, None)),
          mkWorld (fun _ => "") files None ∅ (fun _ => None) elevenOClock []).
Proof.
  apply (Retrieve_static_again doubles (providerAt "default" []) _ _
           world0 world0).
  - reflexivity.
  - reflexivity.
  - discriminate.
  - reflexivity.
Defined.
